(** * wake-on-demand: the server's device registry and its HTTP handlers

    A shallow embedding of [main.go]: the [ESP] record, the process-wide
    [espMap], the five HTTP handlers and one pass of the liveness monitor
    [monitorESPs]; then the client mode ([sendCommand], [listESPs]) and the
    dispatch of [main].  [printUsage] and [runServer] only print and wire
    the handlers into [net/http]; they are not modelled.

    Conventions of the embedding.
    - [espMap] is a Go [map[string]*ESP].  Every pointer stored in it is
      allocated by [registerHandler] for one key and never stored anywhere
      else, so no two keys alias one record and the map is modelled as a
      finite map from ids to records, [gmap string ESP].
    - Each handler holds the mutex [mu] around all of its accesses to
      [espMap]; the model is sequential and takes a handler's critical
      section as one transition of the map.
    - [time.Now()] is an input: a handler that reads the clock takes the
      reading as an argument.  An instant is an integer number of
      nanoseconds, a [time.Duration] is a 64-bit signed number of
      nanoseconds.
    - The request body is represented by the outcome of
      [json.NewDecoder(r.Body).Decode(&data)] for the handler's own [data]
      struct: [None] when [Decode] returns an error.
    - [log.Printf] lines are not part of the modelled state. *)

From Stdlib Require Import ZArith NArith Lia Ascii String List.
From stdpp Require Import gmap strings fin_maps.
Import ListNotations.

Local Open Scope string_scope.
Local Open Scope Z_scope.

(** ** [time]: instants and durations *)

Module Time.

Definition minDuration : Z := - 2 ^ 63.
Definition maxDuration : Z := 2 ^ 63 - 1.
Definition Second : Z := 1000000000.

(** [t.Sub(u)]: the difference, or the extreme duration when the
    difference does not fit 64 bits. *)
Definition Sub (t u : Z) : Z :=
  let d := t - u in
  if d <? minDuration then minDuration
  else if maxDuration <? d then maxDuration
  else d.

(** [time.Since(t)] is [time.Now().Sub(t)]. *)
Definition Since (now t : Z) : Z := Sub now t.

(** [d.Round(m)]: nearest multiple of [m], halfway values away from
    zero; the extreme duration on overflow. *)
Definition Round (d m : Z) : Z :=
  if m <=? 0 then d
  else
    let r := Z.rem d m in
    if d <? 0 then
      let r := - r in
      if r + r <? m then d + r
      else
        let d1 := d - m + r in
        if minDuration <=? d1 then d1 else minDuration
    else
      if r + r <? m then d - r
      else
        let d1 := d + m - r in
        if d1 <=? maxDuration then d1 else maxDuration.

End Time.

(** ** Data model *)

(** [type ESPCommand string]; the empty string is "no pending command". *)
Definition ESPCommand : Type := string.

Definition CommandPulse : ESPCommand := "pulse".
Definition CommandForce : ESPCommand := "force".
Definition CommandStatus : ESPCommand := "status".

Record ESP : Type := mkESP {
  ID : string;
  Command : ESPCommand;
  LastSeen : Z;
  Online : bool
}.

(** Field assignments through the pointer held in the map. *)
Definition set_LastSeen (t : Z) (esp : ESP) : ESP :=
  {| ID := ID esp; Command := Command esp; LastSeen := t; Online := Online esp |}.

Definition set_Online (b : bool) (esp : ESP) : ESP :=
  {| ID := ID esp; Command := Command esp; LastSeen := LastSeen esp; Online := b |}.

Definition set_Command (c : ESPCommand) (esp : ESP) : ESP :=
  {| ID := ID esp; Command := c; LastSeen := LastSeen esp; Online := Online esp |}.

(** ** HTTP requests and responses *)

Definition MethodGet : string := "GET".
Definition MethodPost : string := "POST".

Definition StatusOK : Z := 200.
Definition StatusBadRequest : Z := 400.
Definition StatusNotFound : Z := 404.
Definition StatusMethodNotAllowed : Z := 405.
Definition StatusServiceUnavailable : Z := 503.

(** The [data] struct of [setCommandHandler]. *)
Record SetCommandData : Type := mkSetCommandData {
  dataID : string;
  dataCommand : string
}.

(** What a handler reads of a request: [r.Method], [r.URL.Query().Get("id")]
    (empty when the parameter is missing) and the result of decoding the
    body into the [data] struct of [registerHandler], respectively of
    [setCommandHandler]. *)
Record Request : Type := mkRequest {
  Method : string;
  QueryID : string;
  DecodeRegister : option string;
  DecodeSetCommand : option SetCommandData
}.

(** The element type of the list built by [listHandler].  [infoLastSeen]
    holds the rounded duration itself; its rendering by [Duration.String]
    followed by [" ago"] is left out. *)
Record ESPInfo : Type := mkESPInfo {
  infoID : string;
  infoOnline : bool;
  infoLastSeen : Z
}.

Inductive Body : Type :=
| Text (msg : string)                          (* http.Error *)
| JSONObject (fields : list (string * string)) (* a map[string]string *)
| JSONList (esps : list ESPInfo)               (* {"esps": [...]} *)
| JSONHealth (version : string) (total online : nat).

Record Response : Type := mkResponse {
  StatusCode : Z;
  Payload : Body
}.

(** [http.Error(w, msg, code)]. *)
Definition Error (msg : string) (code : Z) : Response :=
  {| StatusCode := code; Payload := Text msg |}.

Definition VERSION : string := "1.0.0".

(** ** The liveness monitor *)

(** [monitorESPs] loops forever over the ticks of a 10s ticker; the
    definition is the body of that loop, one pass over every record with
    one reading [now] of the clock.  The passes interleave with the handlers
    through [step] below. *)
Definition monitorESPs (timeoutDuration now : Z) (espMap : gmap string ESP)
  : gmap string ESP :=
  (fun esp =>
     let timeSinceLastSeen := Time.Sub now (LastSeen esp) in
     set_Online (timeSinceLastSeen <? timeoutDuration) esp) <$> espMap.

(** ** The handlers *)

Definition registerHandler (r : Request) (now : Z) (espMap : gmap string ESP)
  : gmap string ESP * Response :=
  if negb (String.eqb (Method r) MethodPost) then
    (espMap, Error "only POST allowed" StatusMethodNotAllowed)
  else
    match DecodeRegister r with
    | None => (espMap, Error "invalid JSON" StatusBadRequest)
    | Some dataID =>
        if String.eqb dataID "" then
          (espMap, Error "id cannot be empty" StatusBadRequest)
        else
          let espMap' :=
            match espMap !! dataID with
            | None =>
                <[dataID := {| ID := dataID; Command := "";
                               LastSeen := now; Online := true |}]> espMap
            | Some esp =>
                <[dataID := set_Online true (set_LastSeen now esp)]> espMap
            end in
          (espMap',
           {| StatusCode := StatusOK;
              Payload := JSONObject [("status", "registered")] |})
    end.

Definition commandHandler (r : Request) (now : Z) (espMap : gmap string ESP)
  : gmap string ESP * Response :=
  let id := QueryID r in
  if String.eqb id "" then
    (espMap, Error "missing id" StatusBadRequest)
  else
    match espMap !! id with
    | None => (espMap, Error "ESP not registered" StatusNotFound)
    | Some esp =>
        let esp1 := set_Online true (set_LastSeen now esp) in
        let cmd := Command esp1 in
        let esp2 := set_Command "" esp1 in
        (<[id := esp2]> espMap,
         {| StatusCode := StatusOK;
            Payload := JSONObject [("command", cmd)] |})
    end.

Definition setCommandHandler (r : Request) (espMap : gmap string ESP)
  : gmap string ESP * Response :=
  if negb (String.eqb (Method r) MethodPost) then
    (espMap, Error "only POST allowed" StatusMethodNotAllowed)
  else
    match DecodeSetCommand r with
    | None => (espMap, Error "invalid JSON" StatusBadRequest)
    | Some data =>
        match espMap !! dataID data with
        | None => (espMap, Error "ESP not registered" StatusNotFound)
        | Some esp =>
            if negb (Online esp) then
              (espMap,
               Error ("ESP '" ++ dataID data ++ "' is offline")
                     StatusServiceUnavailable)
            else
              (<[dataID data := set_Command (dataCommand data) esp]> espMap,
               {| StatusCode := StatusOK;
                  Payload := JSONObject [("status", "queued");
                                         ("id", dataID data);
                                         ("command", dataCommand data)] |})
        end
    end.

(** [listHandler] reads the clock once per record ([time.Since] inside the
    loop): [clock id] is the reading made when the record of [id] is
    visited.  Go leaves the order of the iteration unspecified; the model
    lists the records in the order of [map_to_list]. *)
Definition listHandler (r : Request) (clock : string -> Z)
    (espMap : gmap string ESP) : gmap string ESP * Response :=
  let esps :=
    (fun '(id, esp) =>
       {| infoID := id;
          infoOnline := Online esp;
          infoLastSeen :=
            Time.Round (Time.Since (clock id) (LastSeen esp)) Time.Second |})
      <$> map_to_list espMap in
  (espMap, {| StatusCode := StatusOK; Payload := JSONList esps |}).

Definition healthHandler (r : Request) (espMap : gmap string ESP)
  : gmap string ESP * Response :=
  let espCount := size espMap in
  let onlineCount :=
    length (filter (fun p => Online p.2 = true) (map_to_list espMap)) in
  (espMap,
   {| StatusCode := StatusOK;
      Payload := JSONHealth VERSION espCount onlineCount |}).

(** ** The server as a transition system *)

(** One transition of the registry: a request routed by [net/http] to one
    of the handlers registered in [runServer], or one tick of the monitor's
    ticker. *)
Inductive Op : Type :=
| OpRegister (r : Request) (now : Z)
| OpCommand (r : Request) (now : Z)
| OpSetCommand (r : Request)
| OpList (r : Request) (clock : string -> Z)
| OpHealth (r : Request)
| OpMonitor (now : Z).

Definition step (timeoutDuration : Z) (op : Op) (espMap : gmap string ESP)
  : gmap string ESP :=
  match op with
  | OpRegister r now => (registerHandler r now espMap).1
  | OpCommand r now => (commandHandler r now espMap).1
  | OpSetCommand r => (setCommandHandler r espMap).1
  | OpList r clock => (listHandler r clock espMap).1
  | OpHealth r => (healthHandler r espMap).1
  | OpMonitor now => monitorESPs timeoutDuration now espMap
  end.

(** [run] applies the operations from left to right. *)
Definition run (timeoutDuration : Z) (ops : list Op) (espMap : gmap string ESP)
  : gmap string ESP :=
  fold_left (fun m op => step timeoutDuration op m) ops espMap.

(** The states of a server started with [espMap = make(map[string]*ESP)]. *)
Inductive reachable (timeoutDuration : Z) : gmap string ESP -> Prop :=
| reachable_init : reachable timeoutDuration ∅
| reachable_step op espMap :
    reachable timeoutDuration espMap ->
    reachable timeoutDuration (step timeoutDuration op espMap).

(** ** The registry operations, as the well-formed requests that trigger them *)

Definition registerRequest (id : string) : Request :=
  {| Method := MethodPost; QueryID := "";
     DecodeRegister := Some id;
     DecodeSetCommand := Some {| dataID := id; dataCommand := "" |} |}.

Definition setCommandRequest (id command : string) : Request :=
  {| Method := MethodPost; QueryID := "";
     DecodeRegister := Some id;
     DecodeSetCommand := Some {| dataID := id; dataCommand := command |} |}.

Definition pollRequest (id : string) : Request :=
  {| Method := MethodGet; QueryID := id;
     DecodeRegister := None; DecodeSetCommand := None |}.

Definition Register (id : string) (now : Z) (espMap : gmap string ESP)
  : gmap string ESP * Response :=
  registerHandler (registerRequest id) now espMap.

Definition SetCommand (id command : string) (espMap : gmap string ESP)
  : gmap string ESP * Response :=
  setCommandHandler (setCommandRequest id command) espMap.

Definition PollAndClear (id : string) (now : Z) (espMap : gmap string ESP)
  : gmap string ESP * Response :=
  commandHandler (pollRequest id) now espMap.

(** The command carried by a poll response: the ["command"] member of the
    JSON object written by [commandHandler]. *)
Definition polledCommand (resp : Response) : option ESPCommand :=
  match Payload resp with
  | JSONObject [(key, cmd)] => if String.eqb key "command" then Some cmd else None
  | _ => None
  end.

(** ** Invariant of the registry *)

(** No record is ever stored under the empty id, and every record is
    stored under its own [ID]. *)
Definition keys_ok (m : gmap string ESP) : Prop :=
  m !! "" = None /\ forall id esp, m !! id = Some esp -> ID esp = id.

(** The command pending for [id], empty when [id] is not registered. *)
Definition pendingCommand (id : string) (m : gmap string ESP) : ESPCommand :=
  match m !! id with
  | Some esp => Command esp
  | None => ""
  end.

(** ** Scenarios *)

(** The server of the examples runs with the default [-timeout] of 30s. *)
Definition defaultTimeout : Z := 30 * Time.Second.

(** The registry after ["attic"] registered at instant 0. *)
Definition attic_registered : gmap string ESP := (Register "attic" 0 ∅).1.

(** ["attic"] registers at instant 0 and is not heard of again; the monitor
    pass at 60s marks it offline. *)
Definition attic_timed_out : gmap string ESP :=
  run defaultTimeout
      [OpRegister (registerRequest "attic") 0; OpMonitor (60 * Time.Second)] ∅.

(** A registry whose only device, ["attic"], was last seen at instant 0,
    has ["force"] pending and is marked offline. *)
Definition attic_offline : gmap string ESP :=
  {[ "attic" := {| ID := "attic"; Command := "force"; LastSeen := 0; Online := false |} ]}.

(** ["bedroom"] registers, and an operator queues ["pulse"] for it. *)
Definition bedroom_pulse_pending : gmap string ESP :=
  run defaultTimeout
      [OpRegister (registerRequest "bedroom") 0;
       OpSetCommand (setCommandRequest "bedroom" "pulse")] ∅.

(** A poll sent with the method POST. *)
Definition postedPoll : Request :=
  {| Method := MethodPost; QueryID := "bedroom";
     DecodeRegister := None; DecodeSetCommand := None |}.

(** ** Client mode *)

(** The [switch] at the head of [sendCommand]: the command put on the wire
    for a CLI verb; [command] keeps its zero value for any other verb. *)
Definition wireCommand (cmd : string) : string :=
  if String.eqb cmd "on" then "pulse"
  else if String.eqb cmd "off" then "force"
  else if String.eqb cmd "status" then "status"
  else "".

(** *** Strings through JSON

    [sendCommand] passes its strings through [json.Marshal], and the server
    reads them back with the decoder of [encoding/json].  The encoder walks
    the string with [utf8.DecodeRuneInString] and writes the escape of
    U+FFFD for every byte at which no well-formed rune starts; every other
    rune comes back as it was.  A string is a sequence of bytes. *)

Definition byteOf (b : ascii) : N := Ascii.N_of_ascii b.

Definition byteIn (lo hi : N) (b : ascii) : bool :=
  ((lo <=? byteOf b) && (byteOf b <=? hi))%N.

(** A continuation byte. *)
Definition isCont (b : ascii) : bool := byteIn 128 191 b.

(** The length in bytes of the well-formed rune that starts with [b]
    followed by [rest]; [0] when [utf8.DecodeRuneInString] answers
    [(RuneError, 1)]: a stray continuation byte, an overlong form, a
    surrogate, a value above U+10FFFF or a truncated sequence. *)
Definition runeLen (b : ascii) (rest : string) : nat :=
  if (byteOf b <? 128)%N then 1%nat
  else if byteIn 194 223 b then
    match rest with
    | String c1 _ => if isCont c1 then 2%nat else 0%nat
    | _ => 0%nat
    end
  else if byteIn 224 239 b then
    match rest with
    | String c1 (String c2 _) =>
        let lo := if (byteOf b =? 224)%N then 160%N else 128%N in
        let hi := if (byteOf b =? 237)%N then 159%N else 191%N in
        if byteIn lo hi c1 && isCont c2 then 3%nat else 0%nat
    | _ => 0%nat
    end
  else if byteIn 240 244 b then
    match rest with
    | String c1 (String c2 (String c3 _)) =>
        let lo := if (byteOf b =? 240)%N then 144%N else 128%N in
        let hi := if (byteOf b =? 244)%N then 143%N else 191%N in
        if byteIn lo hi c1 && isCont c2 && isCont c3 then 4%nat else 0%nat
    | _ => 0%nat
    end
  else 0%nat.

(** U+FFFD in UTF-8: the bytes EF BF BD. *)
Definition replacementChar : string :=
  String (Ascii.ascii_of_N 239)
    (String (Ascii.ascii_of_N 191) (String (Ascii.ascii_of_N 189) EmptyString)).

(** [skip] counts the bytes still to copy of the rune being copied. *)
Fixpoint jsonStringFrom (skip : nat) (s : string) : string :=
  match s with
  | EmptyString => EmptyString
  | String b rest =>
      match skip with
      | S k => String b (jsonStringFrom k rest)
      | O =>
          match runeLen b rest with
          | O => replacementChar ++ jsonStringFrom 0 rest
          | S k => String b (jsonStringFrom k rest)
          end
      end
  end.

(** What the server's decoder reads for a string the client marshalled. *)
Definition jsonString (s : string) : string := jsonStringFrom 0 s.

Fixpoint asciiOnly (s : string) : bool :=
  match s with
  | EmptyString => true
  | String b rest => (byteOf b <? 128)%N && asciiOnly rest
  end.

(** The request [sendCommand] posts to [/set-command]: the JSON object
    [{"id": espID, "command": command}], as the server's decoders read
    it. *)
Definition sendCommandRequest (cmd espID : string) : Request :=
  setCommandRequest (jsonString espID) (jsonString (wireCommand cmd)).

(** How [sendCommand] ends: the line it prints, and whether it calls
    [os.Exit(1)]. *)
Inductive SendResult : Type :=
| ConnectFailed            (* "Error: Could not connect to server", exit 1 *)
| CommandQueued            (* "Command '<cmd>' queued for <id>", returns *)
| ESPNotRegistered         (* "ESP '<id>' not registered", exit 1 *)
| ESPOffline               (* "ESP '<id>' is offline", exit 1 *)
| OtherStatus (code : Z).  (* "Error: <resp.Status>", exit 1 *)

Definition exitCode (res : SendResult) : Z :=
  match res with
  | CommandQueued => 0
  | _ => 1
  end.

(** [sendCommand]; [post] is [http.Post] to [serverURL + "/set-command"],
    [None] when it returns an error. *)
Definition sendCommand (post : Request -> option Response) (cmd espID : string)
  : SendResult :=
  match post (sendCommandRequest cmd espID) with
  | None => ConnectFailed
  | Some resp =>
      if StatusCode resp =? StatusOK then CommandQueued
      else if StatusCode resp =? StatusNotFound then ESPNotRegistered
      else if StatusCode resp =? StatusServiceUnavailable then ESPOffline
      else OtherStatus (StatusCode resp)
  end.

(** A server in state [espMap] at the other end of [http.Post]. *)
Definition serverPost (espMap : gmap string ESP) (r : Request) : option Response :=
  Some (setCommandHandler r espMap).2.

Inductive Color : Type := Green | Red.

(** One line printed by [listESPs]: the colour of the dot, the id and the
    last-seen text. *)
Record ListLine : Type := mkListLine {
  lineColor : Color;
  lineID : string;
  lineLastSeen : Z
}.

Inductive ListResult : Type :=
| ListConnectFailed                      (* exit 1 *)
| ListDecodeFailed                       (* "Error decoding response", exit 1 *)
| NoESPsRegistered                       (* "No ESPs registered" *)
| RegisteredESPs (lines : list ListLine).

(** [listESPs]; [got] is the outcome of [http.Get] on [/list] followed by
    the decoding of the body: [None] when the request fails, [Some None]
    when the body does not decode. *)
Definition listESPs (got : option (option (list ESPInfo))) : ListResult :=
  match got with
  | None => ListConnectFailed
  | Some None => ListDecodeFailed
  | Some (Some esps) =>
      if (length esps =? 0)%nat then NoESPsRegistered
      else
        RegisteredESPs
          ((fun esp =>
              {| lineColor := if negb (infoOnline esp) then Red else Green;
                 lineID := infoID esp;
                 lineLastSeen := infoLastSeen esp |}) <$> esps)
  end.

(** ** The command line *)

(** What [main] does once [flag.Parse] has run. *)
Inductive Action : Type :=
| PrintVersion
| PrintUsage (code : Z)            (* [printUsage], then return or exit 1 *)
| RunServer
| MissingESPID (cmd : string)      (* "Usage: wake-on-demand <cmd> <esp_id>", exit 1 *)
| SendCommand (cmd espID : string)
| ListESPs
| UnknownCommand (cmd : string).   (* "Unknown command", usage, exit 1 *)

(** [main], from the values of [-version] and [-help] and the remaining
    arguments [flag.Args()]. *)
Definition main (versionFlag helpFlag : bool) (args : list string) : Action :=
  if versionFlag then PrintVersion
  else if helpFlag then PrintUsage 0
  else
    match args with
    | [] => PrintUsage 1
    | cmd :: rest =>
        if String.eqb cmd "server" then RunServer
        else if String.eqb cmd "on" || String.eqb cmd "off" || String.eqb cmd "status" then
          match rest with
          | [] => MissingESPID cmd
          | espID :: _ => SendCommand cmd espID
          end
        else if String.eqb cmd "list" then ListESPs
        else UnknownCommand cmd
    end.

(** ** Observations used in the statements *)

(** The id a request addresses in the handler an operation runs; a monitor
    pass addresses none. *)
Definition target (op : Op) : option string :=
  match op with
  | OpRegister r _ => DecodeRegister r
  | OpCommand r _ => Some (QueryID r)
  | OpSetCommand r => dataID <$> DecodeSetCommand r
  | OpList _ _ | OpHealth _ | OpMonitor _ => None
  end.

(** A register or a poll request for [id]: the two requests that refresh
    [LastSeen] and set [Online]. *)
Definition isContact (id : string) (op : Op) : bool :=
  match op with
  | OpRegister r _ =>
      match DecodeRegister r with
      | Some id' => String.eqb id' id
      | None => false
      end
  | OpCommand r _ => String.eqb (QueryID r) id
  | _ => false
  end.

(** A monitor pass reads a clock that is not before [now]; any other
    operation passes. *)
Definition notBefore (now : Z) (op : Op) : bool :=
  match op with
  | OpMonitor now' => now <=? now'
  | _ => true
  end.

Definition isMonitor (op : Op) : bool :=
  match op with
  | OpMonitor _ => true
  | _ => false
  end.

(** Some operation of [ops] is a set-command request for [id] carrying [c]. *)
Definition commandSent (ops : list Op) (id : string) (c : ESPCommand) : Prop :=
  exists r, In (OpSetCommand r) ops /\
            DecodeSetCommand r = Some {| dataID := id; dataCommand := c |}.

(** ** Equations of the handlers *)

Section HandlerEquations.

Implicit Types (m : gmap string ESP) (r : Request) (id : string) (esp : ESP).

Lemma eqb_empty_false id : id ≠ "" -> String.eqb id "" = false.
Proof. intros H. by apply String.eqb_neq. Qed.

Lemma registerHandler_wrong_method r now m :
  Method r ≠ MethodPost ->
  registerHandler r now m = (m, Error "only POST allowed" StatusMethodNotAllowed).
Proof.
  intros H. unfold registerHandler.
  apply String.eqb_neq in H. by rewrite H.
Qed.

Lemma setCommandHandler_wrong_method r m :
  Method r ≠ MethodPost ->
  setCommandHandler r m = (m, Error "only POST allowed" StatusMethodNotAllowed).
Proof.
  intros H. unfold setCommandHandler.
  apply String.eqb_neq in H. by rewrite H.
Qed.

Lemma Register_absent id now m :
  id ≠ "" -> m !! id = None ->
  Register id now m =
    (<[id := mkESP id "" now true]> m,
     mkResponse StatusOK (JSONObject [("status", "registered")])).
Proof.
  intros Hid Hm. unfold Register, registerHandler. cbn.
  by rewrite (eqb_empty_false id Hid), Hm.
Qed.

Lemma Register_present id now m esp :
  id ≠ "" -> m !! id = Some esp ->
  Register id now m =
    (<[id := mkESP (ID esp) (Command esp) now true]> m,
     mkResponse StatusOK (JSONObject [("status", "registered")])).
Proof.
  intros Hid Hm. unfold Register, registerHandler. cbn.
  by rewrite (eqb_empty_false id Hid), Hm.
Qed.

Lemma SetCommand_absent id c m :
  m !! id = None ->
  SetCommand id c m = (m, Error "ESP not registered" StatusNotFound).
Proof. intros Hm. unfold SetCommand, setCommandHandler. cbn. by rewrite Hm. Qed.

Lemma SetCommand_offline id c m esp :
  m !! id = Some esp -> Online esp = false ->
  SetCommand id c m =
    (m, Error ("ESP '" ++ id ++ "' is offline") StatusServiceUnavailable).
Proof.
  intros Hm Hoff. unfold SetCommand, setCommandHandler. cbn.
  by rewrite Hm, Hoff.
Qed.

Lemma SetCommand_online id c m esp :
  m !! id = Some esp -> Online esp = true ->
  SetCommand id c m =
    (<[id := set_Command c esp]> m,
     mkResponse StatusOK
       (JSONObject [("status", "queued"); ("id", id); ("command", c)])).
Proof.
  intros Hm Hon. unfold SetCommand, setCommandHandler. cbn.
  by rewrite Hm, Hon.
Qed.

Lemma PollAndClear_absent id now m :
  id ≠ "" -> m !! id = None ->
  PollAndClear id now m = (m, Error "ESP not registered" StatusNotFound).
Proof.
  intros Hid Hm. unfold PollAndClear, commandHandler. cbn.
  by rewrite (eqb_empty_false id Hid), Hm.
Qed.

Lemma PollAndClear_present id now m esp :
  id ≠ "" -> m !! id = Some esp ->
  PollAndClear id now m =
    (<[id := mkESP (ID esp) "" now true]> m,
     mkResponse StatusOK (JSONObject [("command", Command esp)])).
Proof.
  intros Hid Hm. unfold PollAndClear, commandHandler. cbn.
  by rewrite (eqb_empty_false id Hid), Hm.
Qed.

End HandlerEquations.

(** ** Invariants of the reachable states *)

Section Reachable.

Variable timeoutDuration : Z.

Lemma keys_ok_step op m : keys_ok m -> keys_ok (step timeoutDuration op m).
Proof.
  intros [Hempty Hid]. destruct op as [r now|r now|r|r clock|r|now]; cbn.
  - unfold registerHandler.
    destruct (String.eqb (Method r) MethodPost); cbn; [|done].
    destruct (DecodeRegister r) as [id|]; cbn; [|done].
    destruct (String.eqb_spec id ""); cbn; [done|].
    destruct (m !! id) as [esp|] eqn:Hm; split.
    + by rewrite lookup_insert_ne.
    + intros id' esp'. rewrite lookup_insert. case_decide; [|by apply Hid].
      intros [= <-]. subst. cbn. by apply Hid.
    + by rewrite lookup_insert_ne.
    + intros id' esp'. rewrite lookup_insert. case_decide; [|by apply Hid].
      intros [= <-]. by subst.
  - unfold commandHandler.
    destruct (String.eqb_spec (QueryID r) ""); cbn; [done|].
    destruct (m !! QueryID r) as [esp|] eqn:Hm; cbn; [|done]. split.
    + by rewrite lookup_insert_ne.
    + intros id' esp'. rewrite lookup_insert. case_decide; [|by apply Hid].
      intros [= <-]. subst. cbn. by apply Hid.
  - unfold setCommandHandler.
    destruct (String.eqb (Method r) MethodPost); cbn; [|done].
    destruct (DecodeSetCommand r) as [data|]; cbn; [|done].
    destruct (m !! dataID data) as [esp|] eqn:Hm; cbn; [|done].
    destruct (Online esp); cbn; [|done]. split.
    + rewrite lookup_insert. case_decide; [|done]. congruence.
    + intros id' esp'. rewrite lookup_insert. case_decide; [|by apply Hid].
      intros [= <-]. subst. cbn. by apply Hid.
  - done.
  - done.
  - unfold monitorESPs. split.
    + by rewrite lookup_fmap, Hempty.
    + intros id esp. rewrite lookup_fmap.
      destruct (m !! id) as [esp0|] eqn:Hm; cbn; [|done].
      intros [= <-]. cbn. by apply Hid.
Qed.

Lemma reachable_keys_ok m : reachable timeoutDuration m -> keys_ok m.
Proof.
  induction 1 as [|op m _ IH].
  - split; [done|]. intros id esp. by rewrite lookup_empty.
  - by apply keys_ok_step.
Qed.

Lemma reachable_nonempty_id m id esp :
  reachable timeoutDuration m -> m !! id = Some esp -> id ≠ "".
Proof.
  intros Hr Hm ->. apply reachable_keys_ok in Hr as [Hempty _]. congruence.
Qed.

Lemma reachable_run ops m :
  reachable timeoutDuration m -> reachable timeoutDuration (run timeoutDuration ops m).
Proof.
  revert m. induction ops as [|op ops IH]; intros m Hr; cbn; [done|].
  apply IH. by constructor.
Qed.

End Reachable.

(** ** Requests and the operations they trigger *)

Section Bridging.

Implicit Types (m : gmap string ESP) (r : Request) (id : string).

(** A handler reads only its own part of the request. *)
Lemma registerHandler_Register r id now m :
  Method r = MethodPost -> DecodeRegister r = Some id ->
  registerHandler r now m = Register id now m.
Proof.
  intros HM HD. unfold Register, registerHandler. by rewrite HM, HD.
Qed.

Lemma setCommandHandler_SetCommand r id c m :
  Method r = MethodPost ->
  DecodeSetCommand r = Some {| dataID := id; dataCommand := c |} ->
  setCommandHandler r m = SetCommand id c m.
Proof.
  intros HM HD. unfold SetCommand, setCommandHandler. by rewrite HM, HD.
Qed.

Lemma commandHandler_PollAndClear r now m :
  commandHandler r now m = PollAndClear (QueryID r) now m.
Proof. reflexivity. Qed.

End Bridging.

(** ** Register *)

(** C2.  For a non-empty id, [Register] answers 200.  When the id is absent
    it stores a record with no pending command, [LastSeen = now] and
    [Online = true], and the registry grows by one record; when the id is
    present it sets [LastSeen = now] and [Online = true] in the existing
    record, keeps its [Command], and the number of records is unchanged.
    The records of all other ids are as before. *)
Theorem Register_creates_or_refreshes (id : string) (now : Z) (m : gmap string ESP) :
  id ≠ "" ->
  StatusCode (Register id now m).2 = StatusOK /\
  match m !! id with
  | None =>
      (Register id now m).1 !! id =
        Some {| ID := id; Command := ""; LastSeen := now; Online := true |} /\
      size (Register id now m).1 = S (size m)
  | Some esp =>
      (Register id now m).1 !! id =
        Some {| ID := ID esp; Command := Command esp;
                LastSeen := now; Online := true |} /\
      size (Register id now m).1 = size m
  end /\
  forall id', id' ≠ id -> (Register id now m).1 !! id' = m !! id'.
Proof.
  intros Hid. destruct (m !! id) as [esp|] eqn:Hm.
  - rewrite (Register_present id now m esp Hid Hm). cbn. repeat split.
    + apply lookup_insert_eq.
    + by eapply map_size_insert_Some.
    + intros id' Hne. by apply lookup_insert_ne.
  - rewrite (Register_absent id now m Hid Hm). cbn. repeat split.
    + apply lookup_insert_eq.
    + by apply map_size_insert_None.
    + intros id' Hne. by apply lookup_insert_ne.
Qed.

Lemma Register_creates_or_refreshes_witness :
  StatusCode (Register "bedroom" 7 ∅).2 = StatusOK /\
  match (∅ : gmap string ESP) !! "bedroom" with
  | None =>
      (Register "bedroom" 7 ∅).1 !! "bedroom" =
        Some {| ID := "bedroom"; Command := ""; LastSeen := 7; Online := true |} /\
      size (Register "bedroom" 7 ∅).1 = S (size (∅ : gmap string ESP))
  | Some esp =>
      (Register "bedroom" 7 ∅).1 !! "bedroom" =
        Some {| ID := ID esp; Command := Command esp;
                LastSeen := 7; Online := true |} /\
      size (Register "bedroom" 7 ∅).1 = size (∅ : gmap string ESP)
  end /\
  forall id', id' ≠ "bedroom" -> (Register "bedroom" 7 ∅).1 !! id' = (∅ : gmap string ESP) !! id'.
Proof. apply (Register_creates_or_refreshes "bedroom" 7 ∅). discriminate. Defined.

(** ** SetCommand *)

(** C3.  [SetCommand id c] answers 404 when [id] is not in the registry and
    503 when it is there with [Online = false], both without changing the
    registry; otherwise it answers 200, stores [c] as it is in the record's
    [Command], whatever string [c] is, and echoes [c] in the response. *)
Theorem SetCommand_outcomes (id c : string) (m : gmap string ESP) :
  (m !! id = None ->
     StatusCode (SetCommand id c m).2 = StatusNotFound /\
     (SetCommand id c m).1 = m) /\
  (forall esp, m !! id = Some esp -> Online esp = false ->
     StatusCode (SetCommand id c m).2 = StatusServiceUnavailable /\
     (SetCommand id c m).1 = m) /\
  (forall esp, m !! id = Some esp -> Online esp = true ->
     StatusCode (SetCommand id c m).2 = StatusOK /\
     Payload (SetCommand id c m).2 =
       JSONObject [("status", "queued"); ("id", id); ("command", c)] /\
     exists esp', (SetCommand id c m).1 !! id = Some esp' /\ Command esp' = c).
Proof.
  repeat split.
  - by rewrite SetCommand_absent.
  - by rewrite SetCommand_absent.
  - by rewrite (SetCommand_offline id c m esp).
  - by rewrite (SetCommand_offline id c m esp).
  - by rewrite (SetCommand_online id c m esp).
  - by rewrite (SetCommand_online id c m esp).
  - rewrite (SetCommand_online id c m esp) by done. cbn.
    exists (set_Command c esp). split; [apply lookup_insert_eq | done].
Qed.

Lemma SetCommand_outcomes_witness :
  StatusCode (SetCommand "attic" "reboot" attic_registered).2 = StatusOK /\
  Payload (SetCommand "attic" "reboot" attic_registered).2 =
    JSONObject [("status", "queued"); ("id", "attic"); ("command", "reboot")] /\
  exists esp', (SetCommand "attic" "reboot" attic_registered).1 !! "attic" = Some esp' /\
               Command esp' = "reboot".
Proof.
  apply (SetCommand_outcomes "attic" "reboot" attic_registered)
    with (esp := mkESP "attic" "" 0 true).
  - vm_compute. reflexivity.
  - reflexivity.
Defined.

(** C9.  A [SetCommand] that answers 200 changes the [Command] of the
    record of [id] and nothing else: the record's [ID], [LastSeen] and
    [Online] are as before, and so is the record of every other id. *)
Theorem SetCommand_frame (id c : string) (m : gmap string ESP) :
  StatusCode (SetCommand id c m).2 = StatusOK ->
  (exists esp esp',
     m !! id = Some esp /\ (SetCommand id c m).1 !! id = Some esp' /\
     Command esp' = c /\ ID esp' = ID esp /\
     LastSeen esp' = LastSeen esp /\ Online esp' = Online esp) /\
  (forall id', id' ≠ id -> (SetCommand id c m).1 !! id' = m !! id').
Proof.
  destruct (m !! id) as [esp|] eqn:Hm.
  - destruct (Online esp) eqn:Hon.
    + rewrite (SetCommand_online id c m esp Hm Hon). cbn. intros _. split.
      * exists esp, (set_Command c esp). by rewrite lookup_insert_eq.
      * intros id' Hne. by apply lookup_insert_ne.
    + rewrite (SetCommand_offline id c m esp Hm Hon). cbn. discriminate.
  - rewrite (SetCommand_absent id c m Hm). cbn. discriminate.
Qed.

Lemma SetCommand_frame_witness :
  (exists esp esp',
     attic_registered !! "attic" = Some esp /\
     (SetCommand "attic" "force" attic_registered).1 !! "attic" = Some esp' /\
     Command esp' = "force" /\ ID esp' = ID esp /\
     LastSeen esp' = LastSeen esp /\ Online esp' = Online esp) /\
  (forall id', id' ≠ "attic" ->
     (SetCommand "attic" "force" attic_registered).1 !! id' = attic_registered !! id').
Proof. apply (SetCommand_frame "attic" "force" attic_registered). reflexivity. Defined.

(** ** Failing requests *)

(** C10.  A request that [registerHandler], [commandHandler] or
    [setCommandHandler] does not answer with 200 leaves the registry as it
    was.  That covers every rejection named below: [registerHandler] on a
    wrong method, an undecodable body or an empty id; [commandHandler] on an
    unknown id; [setCommandHandler] on an unknown id or an offline device. *)
Theorem failure_leaves_registry_unchanged (r : Request) (now : Z) (m : gmap string ESP) :
  (StatusCode (registerHandler r now m).2 ≠ StatusOK -> (registerHandler r now m).1 = m) /\
  (StatusCode (commandHandler r now m).2 ≠ StatusOK -> (commandHandler r now m).1 = m) /\
  (StatusCode (setCommandHandler r m).2 ≠ StatusOK -> (setCommandHandler r m).1 = m) /\
  (Method r ≠ MethodPost \/ DecodeRegister r = None \/ DecodeRegister r = Some "" ->
     StatusCode (registerHandler r now m).2 ≠ StatusOK) /\
  (QueryID r ≠ "" -> m !! QueryID r = None ->
     StatusCode (commandHandler r now m).2 = StatusNotFound) /\
  (forall data, Method r = MethodPost -> DecodeSetCommand r = Some data ->
     m !! dataID data = None ->
     StatusCode (setCommandHandler r m).2 = StatusNotFound) /\
  (forall data esp, Method r = MethodPost -> DecodeSetCommand r = Some data ->
     m !! dataID data = Some esp -> Online esp = false ->
     StatusCode (setCommandHandler r m).2 = StatusServiceUnavailable).
Proof.
  repeat apply conj.
  - unfold registerHandler.
    destruct (String.eqb (Method r) MethodPost); cbn; [|done].
    destruct (DecodeRegister r) as [id|]; cbn; [|done].
    destruct (String.eqb id ""); cbn; [done|].
    intros H. by destruct H.
  - unfold commandHandler.
    destruct (String.eqb (QueryID r) ""); cbn; [done|].
    destruct (m !! QueryID r); cbn; [|done].
    intros H. by destruct H.
  - unfold setCommandHandler.
    destruct (String.eqb (Method r) MethodPost); cbn; [|done].
    destruct (DecodeSetCommand r) as [data|]; cbn; [|done].
    destruct (m !! dataID data) as [esp|]; cbn; [|done].
    destruct (Online esp); cbn; [|done].
    intros H. by destruct H.
  - intros [HM|[HD|HD]].
    + by rewrite registerHandler_wrong_method.
    + unfold registerHandler.
      destruct (String.eqb (Method r) MethodPost); cbn; [|done].
      by rewrite HD.
    + unfold registerHandler.
      destruct (String.eqb (Method r) MethodPost); cbn; [|done].
      by rewrite HD.
  - intros Hid Hm. rewrite commandHandler_PollAndClear.
    by rewrite PollAndClear_absent.
  - intros [id c] HM HD Hm. rewrite (setCommandHandler_SetCommand r id c m HM HD).
    by rewrite SetCommand_absent.
  - intros [id c] esp HM HD Hm Hoff.
    rewrite (setCommandHandler_SetCommand r id c m HM HD).
    by rewrite (SetCommand_offline id c m esp).
Qed.

Lemma failure_leaves_registry_unchanged_witness :
  (setCommandHandler (setCommandRequest "attic" "pulse") attic_offline).1 = attic_offline.
Proof.
  apply (failure_leaves_registry_unchanged (setCommandRequest "attic" "pulse") 0 attic_offline).
  vm_compute. discriminate.
Defined.

(** ** Two writes, then two polls *)

(** C1 as stated fails for a registered device that is marked offline: both
    writes are refused with 503 and the poll that follows finds no command,
    not the second write. *)
Lemma SetCommand_twice_then_poll_counterexample :
  reachable defaultTimeout attic_timed_out /\
  is_Some (attic_timed_out !! "attic") /\
  StatusCode (SetCommand "attic" "pulse" attic_timed_out).2 = StatusServiceUnavailable /\
  polledCommand
    (PollAndClear "attic" (61 * Time.Second)
       (SetCommand "attic" "force"
          (SetCommand "attic" "pulse" attic_timed_out).1).1).2 = Some "" /\
  polledCommand
    (PollAndClear "attic" (61 * Time.Second)
       (SetCommand "attic" "force"
          (SetCommand "attic" "pulse" attic_timed_out).1).1).2 ≠ Some "force".
Proof.
  split; [apply reachable_run; constructor|].
  split; [by vm_compute; eexists|].
  split; [by vm_compute|].
  split; [by vm_compute|].
  vm_compute. discriminate.
Qed.

(** C1, amended.  For a device that is registered and marked online, in a
    reachable registry: after [SetCommand id X] and [SetCommand id Y], the
    next poll of [id] answers 200 with command [Y], and the poll after it
    answers 200 with the empty command. *)
Theorem SetCommand_twice_then_poll
    (timeoutDuration : Z) (m : gmap string ESP) (id X Y : string) (esp : ESP)
    (now now' : Z) :
  reachable timeoutDuration m ->
  m !! id = Some esp ->
  Online esp = true ->
  let m2 := (SetCommand id Y (SetCommand id X m).1).1 in
  let poll1 := PollAndClear id now m2 in
  let poll2 := PollAndClear id now' poll1.1 in
  StatusCode poll1.2 = StatusOK /\ polledCommand poll1.2 = Some Y /\
  StatusCode poll2.2 = StatusOK /\ polledCommand poll2.2 = Some "".
Proof.
  intros Hr Hm Hon.
  assert (Hid : id ≠ "") by (by eapply reachable_nonempty_id).
  cbv zeta.
  rewrite (SetCommand_online id X m esp Hm Hon). cbn [fst snd].
  rewrite (SetCommand_online id Y _ (set_Command X esp));
    [|apply lookup_insert_eq|done].
  cbn [fst snd].
  rewrite (PollAndClear_present id now _ (set_Command Y (set_Command X esp)) Hid);
    [|apply lookup_insert_eq].
  cbn [fst snd].
  rewrite (PollAndClear_present id now' _ (mkESP (ID esp) "" now true) Hid);
    [|apply lookup_insert_eq].
  done.
Qed.

Lemma SetCommand_twice_then_poll_witness :
  let m2 := (SetCommand "attic" "force" (SetCommand "attic" "pulse" attic_registered).1).1 in
  let poll1 := PollAndClear "attic" 5 m2 in
  let poll2 := PollAndClear "attic" 6 poll1.1 in
  StatusCode poll1.2 = StatusOK /\ polledCommand poll1.2 = Some "force" /\
  StatusCode poll2.2 = StatusOK /\ polledCommand poll2.2 = Some "".
Proof.
  apply (SetCommand_twice_then_poll defaultTimeout attic_registered
           "attic" "pulse" "force" (mkESP "attic" "" 0 true) 5 6).
  - apply (reachable_step defaultTimeout (OpRegister (registerRequest "attic") 0) ∅).
    apply reachable_init.
  - vm_compute. reflexivity.
  - reflexivity.
Defined.

(** ** SetCommand and the timeout *)

(** C4 as stated fails: [setCommandHandler] reads the stored [Online] flag
    and no clock.  ["attic"] registered at instant 0; an hour later, with a
    timeout of 30s and no monitor pass in between, the flag is still set and
    the command is accepted. *)
Lemma SetCommand_elapsed_counterexample :
  reachable defaultTimeout attic_registered /\
  (exists esp, attic_registered !! "attic" = Some esp /\
               defaultTimeout < Time.Sub (3600 * Time.Second) (LastSeen esp)) /\
  StatusCode (SetCommand "attic" "force" attic_registered).2 = StatusOK /\
  StatusCode (SetCommand "attic" "force" attic_registered).2 ≠ StatusServiceUnavailable.
Proof.
  split.
  { apply (reachable_step defaultTimeout (OpRegister (registerRequest "attic") 0) ∅).
    apply reachable_init. }
  split.
  { exists (mkESP "attic" "" 0 true). split; [by vm_compute|]. by vm_compute. }
  split; [by vm_compute|].
  vm_compute. discriminate.
Qed.

Lemma Sub_exceeds (timeoutDuration now t : Z) :
  timeoutDuration <= Time.maxDuration ->
  timeoutDuration < now - t ->
  (Time.Sub now t <? timeoutDuration) = false.
Proof.
  intros Hmax Hlt. unfold Time.Sub. apply Z.ltb_ge.
  unfold Time.minDuration, Time.maxDuration in *.
  destruct (Z.ltb_spec (now - t) (- 2 ^ 63)); [lia|].
  destruct (Z.ltb_spec (2 ^ 63 - 1) (now - t)); lia.
Qed.

Lemma Sub_mono (t t' u : Z) : t <= t' -> Time.Sub t u <= Time.Sub t' u.
Proof.
  intros Hle. unfold Time.Sub, Time.minDuration, Time.maxDuration.
  repeat match goal with
         | |- context [ ?a <? ?b ] => destruct (Z.ltb_spec a b)
         end; lia.
Qed.

(** A device that a pass at [now] found timed out stays marked offline
    across an operation that is no contact of it and, if a pass, reads a
    clock not before [now]. *)
Lemma step_stays_timed_out
    (timeoutDuration now : Z) (op : Op) (id : string) (m : gmap string ESP) (esp : ESP) :
  m !! id = Some esp -> Online esp = false ->
  (Time.Sub now (LastSeen esp) <? timeoutDuration) = false ->
  isContact id op = false -> notBefore now op = true ->
  exists esp',
    step timeoutDuration op m !! id = Some esp' /\ Online esp' = false /\
    LastSeen esp' = LastSeen esp.
Proof.
  intros Hm Hoff Hstale Hc Hnb.
  destruct op as [r now0|r now0|r|r clock|r|now']; cbn in *.
  - unfold registerHandler.
    destruct (String.eqb (Method r) MethodPost); cbn; [|by eauto].
    destruct (DecodeRegister r) as [id0|]; cbn; [|by eauto].
    destruct (String.eqb id0 ""); cbn; [by eauto|].
    apply String.eqb_neq in Hc.
    destruct (m !! id0); rewrite lookup_insert_ne by done; by eauto.
  - unfold commandHandler.
    destruct (String.eqb (QueryID r) ""); cbn; [by eauto|].
    apply String.eqb_neq in Hc.
    destruct (m !! QueryID r); cbn; [|by eauto].
    rewrite lookup_insert_ne by done. by eauto.
  - unfold setCommandHandler.
    destruct (String.eqb (Method r) MethodPost); cbn; [|by eauto].
    destruct (DecodeSetCommand r) as [[id0 c0]|]; cbn; [|by eauto].
    destruct (decide (id0 = id)) as [->|Hne].
    + rewrite Hm, Hoff. cbn. by eauto.
    + destruct (m !! id0) as [esp0|]; cbn; [|by eauto].
      destruct (Online esp0); cbn; [|by eauto].
      rewrite lookup_insert_ne by done. by eauto.
  - by eauto.
  - by eauto.
  - eexists. unfold monitorESPs. rewrite lookup_fmap, Hm. cbn.
    split; [done|]. split; [|done].
    apply Z.ltb_ge. apply Z.ltb_ge in Hstale. apply Z.leb_le in Hnb.
    pose proof (Sub_mono now now' (LastSeen esp) Hnb). lia.
Qed.

Lemma run_stays_timed_out
    (timeoutDuration now : Z) (ops : list Op) (id : string) (m : gmap string ESP) (esp : ESP) :
  m !! id = Some esp -> Online esp = false ->
  (Time.Sub now (LastSeen esp) <? timeoutDuration) = false ->
  Forall (fun op => isContact id op = false /\ notBefore now op = true) ops ->
  exists esp',
    run timeoutDuration ops m !! id = Some esp' /\ Online esp' = false.
Proof.
  intros Hm Hoff Hstale Hops. revert m esp Hm Hoff Hstale.
  induction Hops as [|op ops [Hc Hnb] _ IH]; intros m esp Hm Hoff Hstale.
  - by eauto.
  - destruct (step_stays_timed_out timeoutDuration now op id m esp
                Hm Hoff Hstale Hc Hnb) as (esp1 & Hm1 & Hoff1 & Hls).
    cbn. apply (IH _ esp1 Hm1 Hoff1). by rewrite Hls.
Qed.

(** C4, amended.  For a registered device, [SetCommand] answers 503 exactly
    when the stored [Online] flag is unset at the call.  The flag is unset
    by a monitor pass: when a pass runs at an instant [now] with
    [now - LastSeen] above the timeout (a timeout that fits a [Duration]),
    a [SetCommand] answers 503 after the pass and after any operations
    [ops] that follow it, as long as none of them is a register or a poll
    request for the device and every later monitor pass reads a clock that
    is not before [now]. *)
Theorem SetCommand_unavailable_after_monitor
    (timeoutDuration now : Z) (id c : string) (m : gmap string ESP) (esp : ESP)
    (ops : list Op) :
  m !! id = Some esp ->
  (StatusCode (SetCommand id c m).2 = StatusServiceUnavailable <-> Online esp = false) /\
  (timeoutDuration <= Time.maxDuration ->
   timeoutDuration < now - LastSeen esp ->
   Forall (fun op => isContact id op = false /\ notBefore now op = true) ops ->
   StatusCode
     (SetCommand id c
        (run timeoutDuration ops (monitorESPs timeoutDuration now m))).2
     = StatusServiceUnavailable).
Proof.
  intros Hm. split.
  - destruct (Online esp) eqn:Hon.
    + rewrite (SetCommand_online id c m esp Hm Hon). by cbn.
    + rewrite (SetCommand_offline id c m esp Hm Hon). by cbn.
  - intros Hmax Hlt Hops.
    pose proof (Sub_exceeds timeoutDuration now (LastSeen esp) Hmax Hlt) as Hstale.
    destruct (run_stays_timed_out timeoutDuration now ops id
                (monitorESPs timeoutDuration now m)
                (set_Online (Time.Sub now (LastSeen esp) <? timeoutDuration) esp))
      as (esp' & Hm' & Hoff'); [| | |done|].
    + unfold monitorESPs. by rewrite lookup_fmap, Hm.
    + done.
    + done.
    + by rewrite (SetCommand_offline id c _ esp' Hm' Hoff').
Qed.

(** After the pass at 60s: an operator's write, a health check, a poll of
    another device, a listing and a second pass at 90s. *)
Lemma SetCommand_unavailable_after_monitor_witness :
  StatusCode
    (SetCommand "attic" "force"
       (run defaultTimeout
          [OpSetCommand (setCommandRequest "attic" "pulse");
           OpHealth (pollRequest "");
           OpCommand (pollRequest "bedroom") (70 * Time.Second);
           OpList (pollRequest "") (fun _ => 80 * Time.Second);
           OpMonitor (90 * Time.Second)]
          (monitorESPs defaultTimeout (60 * Time.Second) attic_registered))).2
  = StatusServiceUnavailable.
Proof.
  apply (SetCommand_unavailable_after_monitor defaultTimeout (60 * Time.Second)
           "attic" "force" attic_registered (mkESP "attic" "" 0 true)).
  - vm_compute. reflexivity.
  - vm_compute. discriminate.
  - vm_compute. reflexivity.
  - repeat constructor.
Defined.

(** ** Register, then poll *)

(** C5 as stated fails when the id is registered with a command pending:
    re-registering keeps the command and the poll delivers it. *)
Lemma Register_then_poll_counterexample :
  reachable defaultTimeout bedroom_pulse_pending /\
  "bedroom" ≠ "" /\
  polledCommand
    (PollAndClear "bedroom" 2 (Register "bedroom" 1 bedroom_pulse_pending).1).2
    = Some "pulse" /\
  polledCommand
    (PollAndClear "bedroom" 2 (Register "bedroom" 1 bedroom_pulse_pending).1).2
    ≠ Some "".
Proof.
  split; [apply reachable_run; constructor|].
  split; [discriminate|].
  split; [by vm_compute|].
  vm_compute. discriminate.
Qed.

(** C5, amended.  For a non-empty id and any registry, [Register id]
    followed by [PollAndClear id] answers 200 with the command that was
    pending for [id] before the [Register]: the empty command when [id] was
    not registered or had nothing pending. *)
Theorem Register_then_poll (id : string) (now now' : Z) (m : gmap string ESP) :
  id ≠ "" ->
  StatusCode (PollAndClear id now' (Register id now m).1).2 = StatusOK /\
  polledCommand (PollAndClear id now' (Register id now m).1).2
    = Some (pendingCommand id m).
Proof.
  intros Hid. unfold pendingCommand. destruct (m !! id) as [esp|] eqn:Hm.
  - rewrite (Register_present id now m esp Hid Hm). cbn [fst snd].
    rewrite (PollAndClear_present id now' _ (mkESP (ID esp) (Command esp) now true) Hid);
      [done|apply lookup_insert_eq].
  - rewrite (Register_absent id now m Hid Hm). cbn [fst snd].
    rewrite (PollAndClear_present id now' _ (mkESP id "" now true) Hid);
      [done|apply lookup_insert_eq].
Qed.

Lemma Register_then_poll_witness :
  StatusCode (PollAndClear "bedroom" 2 (Register "bedroom" 1 ∅).1).2 = StatusOK /\
  polledCommand (PollAndClear "bedroom" 2 (Register "bedroom" 1 ∅).1).2
    = Some (pendingCommand "bedroom" ∅).
Proof. apply (Register_then_poll "bedroom" 1 2 ∅). discriminate. Defined.

(** ** Method restrictions *)

(** C7 as stated fails: [commandHandler] never reads [r.Method].  A POST to
    the poll endpoint is answered 200 and consumes the pending command;
    [listHandler] and [healthHandler] answer the same POST with 200 too. *)
Lemma method_restriction_counterexample :
  Method postedPoll ≠ MethodGet /\
  StatusCode (listHandler postedPoll (fun _ => 5) bedroom_pulse_pending).2 = StatusOK /\
  StatusCode (healthHandler postedPoll bedroom_pulse_pending).2 = StatusOK /\
  StatusCode (commandHandler postedPoll 5 bedroom_pulse_pending).2 = StatusOK /\
  StatusCode (commandHandler postedPoll 5 bedroom_pulse_pending).2 ≠ StatusMethodNotAllowed /\
  polledCommand (commandHandler postedPoll 5 bedroom_pulse_pending).2 = Some "pulse" /\
  (commandHandler postedPoll 5 bedroom_pulse_pending).1 ≠ bedroom_pulse_pending.
Proof.
  split; [discriminate|].
  split; [reflexivity|].
  split; [reflexivity|].
  split; [by vm_compute|].
  split; [vm_compute; discriminate|].
  split; [by vm_compute|].
  intros Heq.
  assert (H : pendingCommand "bedroom" (commandHandler postedPoll 5 bedroom_pulse_pending).1
              = pendingCommand "bedroom" bedroom_pulse_pending) by (by rewrite Heq).
  vm_compute in H. discriminate.
Qed.

(** C7, amended.  [registerHandler] and [setCommandHandler] answer a request
    whose method is not POST with 405 and leave the registry as it was. *)
Theorem post_handlers_enforce_method (r : Request) (now : Z) (m : gmap string ESP) :
  Method r ≠ MethodPost ->
  StatusCode (registerHandler r now m).2 = StatusMethodNotAllowed /\
  (registerHandler r now m).1 = m /\
  StatusCode (setCommandHandler r m).2 = StatusMethodNotAllowed /\
  (setCommandHandler r m).1 = m.
Proof.
  intros HM.
  rewrite (registerHandler_wrong_method r now m HM).
  by rewrite (setCommandHandler_wrong_method r m HM).
Qed.

Lemma post_handlers_enforce_method_witness :
  StatusCode (registerHandler (pollRequest "bedroom") 3 bedroom_pulse_pending).2
    = StatusMethodNotAllowed /\
  (registerHandler (pollRequest "bedroom") 3 bedroom_pulse_pending).1
    = bedroom_pulse_pending /\
  StatusCode (setCommandHandler (pollRequest "bedroom") bedroom_pulse_pending).2
    = StatusMethodNotAllowed /\
  (setCommandHandler (pollRequest "bedroom") bedroom_pulse_pending).1
    = bedroom_pulse_pending.
Proof.
  apply (post_handlers_enforce_method (pollRequest "bedroom") 3 bedroom_pulse_pending).
  discriminate.
Defined.

(** ** Who clears the online flag *)

Section OnlineFlag.

Variable timeoutDuration : Z.

Implicit Types (m : gmap string ESP) (r : Request) (id : string) (op : Op).

Lemma registerHandler_offline_inv r now m id esp' :
  (registerHandler r now m).1 !! id = Some esp' -> Online esp' = false ->
  exists esp, m !! id = Some esp /\ Online esp = false.
Proof.
  unfold registerHandler.
  destruct (String.eqb (Method r) MethodPost); cbn; [|by eauto].
  destruct (DecodeRegister r) as [id0|]; cbn; [|by eauto].
  destruct (String.eqb id0 ""); cbn; [by eauto|].
  destruct (m !! id0) as [esp0|] eqn:Hm0;
    rewrite lookup_insert; case_decide; subst;
    try (intros [= <-]; cbn; discriminate); by eauto.
Qed.

Lemma commandHandler_offline_inv r now m id esp' :
  (commandHandler r now m).1 !! id = Some esp' -> Online esp' = false ->
  exists esp, m !! id = Some esp /\ Online esp = false.
Proof.
  unfold commandHandler.
  destruct (String.eqb (QueryID r) ""); cbn; [by eauto|].
  destruct (m !! QueryID r) as [esp0|] eqn:Hm0; cbn; [|by eauto].
  rewrite lookup_insert; case_decide; subst;
    try (intros [= <-]; cbn; discriminate); by eauto.
Qed.

Lemma setCommandHandler_offline_inv r m id esp' :
  (setCommandHandler r m).1 !! id = Some esp' -> Online esp' = false ->
  exists esp, m !! id = Some esp /\ Online esp = false.
Proof.
  unfold setCommandHandler.
  destruct (String.eqb (Method r) MethodPost); cbn; [|by eauto].
  destruct (DecodeSetCommand r) as [data|]; cbn; [|by eauto].
  destruct (m !! dataID data) as [esp0|] eqn:Hm0; cbn; [|by eauto].
  destruct (Online esp0) eqn:Hon; cbn; [|by eauto].
  rewrite lookup_insert; case_decide; subst; [|by eauto].
  intros [= <-]; cbn. congruence.
Qed.

(** Across one transition, a record found offline afterwards was offline
    before, unless the transition is a monitor pass. *)
Lemma step_offline_inv op m id esp' :
  step timeoutDuration op m !! id = Some esp' -> Online esp' = false ->
  (exists now, op = OpMonitor now) \/
  (exists esp, m !! id = Some esp /\ Online esp = false).
Proof.
  destruct op as [r now|r now|r|r clock|r|now]; cbn; intros Hl Hoff.
  - right. by eapply registerHandler_offline_inv.
  - right. by eapply commandHandler_offline_inv.
  - right. by eapply setCommandHandler_offline_inv.
  - right. by eauto.
  - right. by eauto.
  - left. by eauto.
Qed.

(** No transition removes a record. *)
Lemma step_keeps_record op m id esp :
  m !! id = Some esp -> is_Some (step timeoutDuration op m !! id).
Proof.
  intros Hm. destruct op as [r now|r now|r|r clock|r|now]; cbn.
  - unfold registerHandler.
    destruct (String.eqb (Method r) MethodPost); cbn; [|by eauto].
    destruct (DecodeRegister r) as [id0|]; cbn; [|by eauto].
    destruct (String.eqb id0 ""); cbn; [by eauto|].
    destruct (m !! id0); rewrite lookup_insert; case_decide; by eauto.
  - unfold commandHandler.
    destruct (String.eqb (QueryID r) ""); cbn; [by eauto|].
    destruct (m !! QueryID r); cbn; [|by eauto].
    rewrite lookup_insert; case_decide; by eauto.
  - unfold setCommandHandler.
    destruct (String.eqb (Method r) MethodPost); cbn; [|by eauto].
    destruct (DecodeSetCommand r) as [data|]; cbn; [|by eauto].
    destruct (m !! dataID data) as [esp0|]; cbn; [|by eauto].
    destruct (Online esp0); cbn; [|by eauto].
    rewrite lookup_insert; case_decide; by eauto.
  - by eauto.
  - by eauto.
  - unfold monitorESPs. rewrite lookup_fmap, Hm. by eauto.
Qed.

Lemma run_offline_inv ops m id esp esp' :
  m !! id = Some esp -> Online esp = true ->
  run timeoutDuration ops m !! id = Some esp' -> Online esp' = false ->
  exists now, In (OpMonitor now) ops.
Proof.
  revert m esp. induction ops as [|op ops IH]; intros m esp Hm Hon; cbn.
  - intros Hl Hoff. congruence.
  - intros Hl Hoff.
    destruct (step_keeps_record op m id esp Hm) as [esp1 Hm1].
    destruct (Online esp1) eqn:Hon1.
    + destruct (IH _ esp1 Hm1 Hon1 Hl Hoff) as [now Hin]. by eauto.
    + destruct (step_offline_inv op m id esp1 Hm1 Hon1) as [[now ->]|[esp0 [Hm0 Hoff0]]].
      * exists now. by left.
      * congruence.
Qed.

End OnlineFlag.

(** C6.  (1) A transition that takes a device from online to offline is a
    monitor pass, and (2) a sequence of transitions that does so contains
    one.  (3) A monitor pass sets the flag of every device to
    [now - LastSeen < timeout].  (4, 5) After [registerHandler] or
    [commandHandler], a record that is offline was there and offline before
    the call: neither clears a flag nor creates an offline record.
    (6, 7) A register or poll answered with 200 leaves its device online. *)
Theorem online_cleared_only_by_monitor (timeoutDuration : Z) (m : gmap string ESP) :
  (forall op id esp esp',
     m !! id = Some esp -> Online esp = true ->
     step timeoutDuration op m !! id = Some esp' -> Online esp' = false ->
     exists now, op = OpMonitor now) /\
  (forall ops id esp esp',
     m !! id = Some esp -> Online esp = true ->
     run timeoutDuration ops m !! id = Some esp' -> Online esp' = false ->
     exists now, In (OpMonitor now) ops) /\
  (forall now id esp,
     m !! id = Some esp ->
     monitorESPs timeoutDuration now m !! id =
       Some (set_Online (Time.Sub now (LastSeen esp) <? timeoutDuration) esp)) /\
  (forall r now id esp',
     (registerHandler r now m).1 !! id = Some esp' -> Online esp' = false ->
     exists esp, m !! id = Some esp /\ Online esp = false) /\
  (forall r now id esp',
     (commandHandler r now m).1 !! id = Some esp' -> Online esp' = false ->
     exists esp, m !! id = Some esp /\ Online esp = false) /\
  (forall r now,
     StatusCode (registerHandler r now m).2 = StatusOK ->
     exists id esp', DecodeRegister r = Some id /\
                     (registerHandler r now m).1 !! id = Some esp' /\
                     Online esp' = true /\ LastSeen esp' = now) /\
  (forall r now,
     StatusCode (commandHandler r now m).2 = StatusOK ->
     exists esp', (commandHandler r now m).1 !! QueryID r = Some esp' /\
                  Online esp' = true /\ LastSeen esp' = now).
Proof.
  repeat apply conj.
  - intros op id esp esp' Hm Hon Hl Hoff.
    destruct (step_offline_inv timeoutDuration op m id esp' Hl Hoff)
      as [Hmon|[esp0 [Hm0 Hoff0]]]; [done|congruence].
  - intros ops id esp esp'. apply run_offline_inv.
  - intros now id esp Hm. unfold monitorESPs. by rewrite lookup_fmap, Hm.
  - intros r now id esp'. apply registerHandler_offline_inv.
  - intros r now id esp'. apply commandHandler_offline_inv.
  - intros r now. unfold registerHandler.
    destruct (String.eqb (Method r) MethodPost); cbn; [|done].
    destruct (DecodeRegister r) as [id|]; cbn; [|done].
    destruct (String.eqb id ""); cbn; [done|]. intros _.
    destruct (m !! id) as [esp|]; eexists _, _;
      (split; [done|]); rewrite lookup_insert_eq; done.
  - intros r now. unfold commandHandler.
    destruct (String.eqb (QueryID r) ""); cbn; [done|].
    destruct (m !! QueryID r) as [esp|]; cbn; [|done]. intros _.
    eexists. rewrite lookup_insert_eq. done.
Qed.

Lemma online_cleared_only_by_monitor_witness :
  exists now, OpMonitor (60 * Time.Second) = OpMonitor now.
Proof.
  apply (online_cleared_only_by_monitor defaultTimeout attic_registered)
    with (id := "attic") (esp := mkESP "attic" "" 0 true)
         (esp' := mkESP "attic" "" 0 false).
  - vm_compute. reflexivity.
  - reflexivity.
  - vm_compute. reflexivity.
  - reflexivity.
Defined.

(** ** The read-only endpoints *)

Section ReadOnly.

Implicit Types (m : gmap string ESP) (r : Request) (id : string).

(** The list built by the loop of [listHandler]. *)
Lemma listHandler_payload r clock m :
  Payload (listHandler r clock m).2 =
    JSONList
      ((fun p : string * ESP =>
          {| infoID := p.1; infoOnline := Online p.2;
             infoLastSeen :=
               Time.Round (Time.Since (clock p.1) (LastSeen p.2)) Time.Second |})
         <$> map_to_list m).
Proof.
  unfold listHandler. cbn. f_equal.
  apply list_fmap_ext. by intros i [id esp] _.
Qed.

Lemma filter_all_length {A} (P : A -> Prop) `{!forall x, Decision (P x)} (l : list A) :
  length (filter P l) = length l <-> Forall P l.
Proof.
  induction l as [|x l IH]; [by split; [constructor|]|].
  rewrite filter_cons. destruct (decide (P x)) as [HP|HP]; cbn.
  - split.
    + intros [= Hlen]. constructor; [done|]. by apply IH.
    + intros HF. inversion HF; subst. f_equal. by apply IH.
  - split.
    + intros Hlen. pose proof (length_filter P l). lia.
    + intros HF. by inversion HF.
Qed.

Lemma filter_none_length {A} (P : A -> Prop) `{!forall x, Decision (P x)} (l : list A) :
  length (filter P l) = 0%nat <-> Forall (fun x => ~ P x) l.
Proof.
  induction l as [|x l IH]; [by split; [constructor|]|].
  rewrite filter_cons. destruct (decide (P x)) as [HP|HP]; cbn.
  - split; [done|]. intros HF. by inversion HF.
  - split.
    + intros Hlen. constructor; [done|]. by apply IH.
    + intros HF. inversion HF; subst. by apply IH.
Qed.

End ReadOnly.

(** X1.  [listHandler] answers 200, leaves the registry as it was and lists
    every registered device exactly once: the list has as many entries as
    the registry has records, no id occurs twice, and an id is listed with
    an online flag exactly when the registry holds that id with that
    flag. *)
Theorem listHandler_snapshot (r : Request) (clock : string -> Z) (m : gmap string ESP) :
  (listHandler r clock m).1 = m /\
  StatusCode (listHandler r clock m).2 = StatusOK /\
  exists esps,
    Payload (listHandler r clock m).2 = JSONList esps /\
    length esps = size m /\
    NoDup (infoID <$> esps) /\
    forall id b,
      (exists info, info ∈ esps /\ infoID info = id /\ infoOnline info = b) <->
      (exists esp, m !! id = Some esp /\ Online esp = b).
Proof.
  split; [done|]. split; [done|].
  eexists. split; [apply listHandler_payload|].
  split; [by rewrite length_fmap, length_map_to_list|].
  split.
  - rewrite <- list_fmap_compose.
    rewrite (list_fmap_ext _ fst (map_to_list m)); [|by intros i [??] _].
    apply NoDup_fst_map_to_list.
  - intros id b. split.
    + intros (info & Hin & <- & <-).
      apply list_elem_of_fmap in Hin as ([id esp] & -> & Hin).
      apply elem_of_map_to_list in Hin. by eauto.
    + intros (esp & Hm & <-).
      apply elem_of_map_to_list in Hm.
      eexists. split; [by apply (list_elem_of_fmap_2 _ _ (id, esp))|done].
Qed.

(** X2.  [healthHandler] answers 200 and leaves the registry as it was.
    Its total is the number of records; its online count is at most the
    total, equals the total exactly when every record is marked online and
    is zero exactly when none is. *)
Theorem healthHandler_counts (r : Request) (m : gmap string ESP) :
  (healthHandler r m).1 = m /\
  StatusCode (healthHandler r m).2 = StatusOK /\
  exists online : nat,
    Payload (healthHandler r m).2 = JSONHealth VERSION (size m) online /\
    (online <= size m)%nat /\
    (online = size m <-> forall id esp, m !! id = Some esp -> Online esp = true) /\
    (online = 0%nat <-> forall id esp, m !! id = Some esp -> Online esp = false).
Proof.
  split; [done|]. split; [done|].
  eexists. split; [reflexivity|].
  split; [rewrite <- length_map_to_list; apply length_filter|].
  split.
  - rewrite <- length_map_to_list, filter_all_length, Forall_forall. split.
    + intros H id esp Hm. by apply (H (id, esp)), elem_of_map_to_list.
    + intros H [id esp] Hin. by apply (H id), elem_of_map_to_list.
  - rewrite filter_none_length, Forall_forall. split.
    + intros H id esp Hm. apply not_true_is_false.
      by apply (H (id, esp)), elem_of_map_to_list.
    + intros H [id esp] Hin. cbn. apply elem_of_map_to_list in Hin.
      rewrite (H id esp Hin). discriminate.
Qed.

(** X3.  The two read-only endpoints agree on one registry: the total
    reported by [healthHandler] is the length of the list of [listHandler],
    and its online count is the number of listed entries flagged online. *)
Theorem health_agrees_with_list (r r' : Request) (clock : string -> Z) (m : gmap string ESP) :
  exists esps total online,
    Payload (listHandler r clock m).2 = JSONList esps /\
    Payload (healthHandler r' m).2 = JSONHealth VERSION total online /\
    total = length esps /\
    online = length (filter (fun info => infoOnline info = true) esps).
Proof.
  eexists _, _, _. split; [apply listHandler_payload|].
  split; [reflexivity|].
  split; [by rewrite length_fmap, length_map_to_list|].
  generalize (map_to_list m). intros l.
  induction l as [|[id esp] l IH]; [done|].
  rewrite fmap_cons, !filter_cons. cbn.
  destruct (decide (Online esp = true)); cbn; by rewrite IH.
Qed.

(** ** Durations *)

Lemma Sub_exact (t u : Z) :
  Time.minDuration <= t - u <= Time.maxDuration -> Time.Sub t u = t - u.
Proof.
  intros [Hlo Hhi]. unfold Time.Sub.
  destruct (Z.ltb_spec (t - u) Time.minDuration); [lia|].
  destruct (Z.ltb_spec Time.maxDuration (t - u)); [lia|done].
Qed.

Lemma Round_nearest (d m : Z) :
  0 < m -> 0 <= d -> d <= Time.maxDuration - m ->
  (exists k, Time.Round d m = k * m) /\ 2 * Z.abs (Time.Round d m - d) <= m.
Proof.
  intros Hm Hd Hmax. unfold Time.Round.
  destruct (Z.leb_spec m 0); [lia|].
  destruct (Z.ltb_spec d 0); [lia|].
  rewrite Z.rem_mod_nonneg by lia.
  pose proof (Z.mod_pos_bound d m Hm) as Hr.
  pose proof (Z.div_mod d m ltac:(lia)) as Hdm.
  destruct (Z.ltb_spec (d mod m + d mod m) m).
  - split; [exists (d / m); lia | lia].
  - destruct (Z.leb_spec (d + m - d mod m) Time.maxDuration); [|lia].
    split; [exists (d / m + 1); lia | lia].
Qed.

(** X4.  For a registered device last seen no later than the clock reading
    of its visit, and less than the largest duration minus one second
    before it, the [last_seen] of its entry in the list is a whole number
    of seconds that differs from the elapsed time by at most half a
    second. *)
Theorem listHandler_last_seen_rounded
    (r : Request) (clock : string -> Z) (m : gmap string ESP) (id : string) (esp : ESP) :
  m !! id = Some esp ->
  LastSeen esp <= clock id ->
  clock id - LastSeen esp <= Time.maxDuration - Time.Second ->
  exists esps info,
    Payload (listHandler r clock m).2 = JSONList esps /\
    info ∈ esps /\ infoID info = id /\ infoOnline info = Online esp /\
    (exists k, infoLastSeen info = k * Time.Second) /\
    2 * Z.abs (infoLastSeen info - (clock id - LastSeen esp)) <= Time.Second.
Proof.
  intros Hm Hle Hmax.
  eexists _, _. split; [apply listHandler_payload|].
  split.
  { apply (list_elem_of_fmap_2 _ _ (id, esp)). by apply elem_of_map_to_list. }
  cbn [infoID infoOnline infoLastSeen fst snd]. split; [done|]. split; [done|].
  unfold Time.Since. rewrite Sub_exact.
  - apply Round_nearest; [done|lia|done].
  - unfold Time.minDuration, Time.maxDuration, Time.Second in *. lia.
Qed.

Lemma listHandler_last_seen_rounded_witness :
  exists esps info,
    Payload (listHandler (pollRequest "") (fun _ => 1600000000) attic_registered).2
      = JSONList esps /\
    info ∈ esps /\ infoID info = "attic" /\
    infoOnline info = Online (mkESP "attic" "" 0 true) /\
    (exists k, infoLastSeen info = k * Time.Second) /\
    2 * Z.abs (infoLastSeen info - (1600000000 - LastSeen (mkESP "attic" "" 0 true)))
      <= Time.Second.
Proof.
  apply (listHandler_last_seen_rounded (pollRequest "") (fun _ => 1600000000)
           attic_registered "attic" (mkESP "attic" "" 0 true)).
  - vm_compute. reflexivity.
  - vm_compute. discriminate.
  - vm_compute. discriminate.
Defined.

(** ** The monitor pass *)

(** X5.  A monitor pass changes nothing but [Online] flags: it keeps the
    set of registered ids and, in every record, the [ID], the pending
    [Command] and [LastSeen].  A second pass at the same instant changes
    nothing more. *)
Theorem monitorESPs_frame (timeoutDuration now : Z) (m : gmap string ESP) :
  dom (monitorESPs timeoutDuration now m) = dom m /\
  (forall id esp,
     m !! id = Some esp ->
     exists esp',
       monitorESPs timeoutDuration now m !! id = Some esp' /\
       ID esp' = ID esp /\ Command esp' = Command esp /\
       LastSeen esp' = LastSeen esp) /\
  monitorESPs timeoutDuration now (monitorESPs timeoutDuration now m)
    = monitorESPs timeoutDuration now m.
Proof.
  split; [apply dom_fmap_L|]. split.
  - intros id esp Hm. eexists. unfold monitorESPs.
    rewrite lookup_fmap, Hm. by cbn.
  - unfold monitorESPs. rewrite <- map_fmap_compose.
    apply map_fmap_ext. by intros id [i c t o] _.
Qed.

(** X6.  Without contact, offline stays offline: if a monitor pass at
    [now] marks a device offline, so does every pass at a later instant
    over the same [LastSeen]. *)
Theorem monitorESPs_offline_persists
    (timeoutDuration now now' : Z) (m : gmap string ESP) (id : string) (esp1 : ESP) :
  now <= now' ->
  monitorESPs timeoutDuration now m !! id = Some esp1 ->
  Online esp1 = false ->
  exists esp2,
    monitorESPs timeoutDuration now' (monitorESPs timeoutDuration now m) !! id
      = Some esp2 /\
    Online esp2 = false.
Proof.
  intros Hle Hl Hoff. eexists. split.
  - unfold monitorESPs at 1. by rewrite lookup_fmap, Hl.
  - unfold monitorESPs in Hl. rewrite lookup_fmap in Hl.
    destruct (m !! id) as [esp|]; [|done]. cbn in Hl.
    injection Hl as <-. cbn in *.
    apply Z.ltb_ge in Hoff. apply Z.ltb_ge.
    pose proof (Sub_mono now now' (LastSeen esp) Hle). lia.
Qed.

Lemma monitorESPs_offline_persists_witness :
  exists esp2,
    monitorESPs defaultTimeout (90 * Time.Second)
      (monitorESPs defaultTimeout (60 * Time.Second) attic_registered) !! "attic"
      = Some esp2 /\
    Online esp2 = false.
Proof.
  apply (monitorESPs_offline_persists defaultTimeout (60 * Time.Second)
           (90 * Time.Second) attic_registered "attic" (mkESP "attic" "" 0 false)).
  - vm_compute. discriminate.
  - vm_compute. reflexivity.
  - reflexivity.
Defined.

(** X7.  A device heard from less than the timeout ago survives the monitor:
    after a register or a poll of a registered device at instant [t], a
    monitor pass at [now] with [t <= now < t + timeout] (a timeout that fits
    a [Duration]) leaves the device online, and a [SetCommand] after the
    pass answers 200. *)
Theorem contact_within_timeout_stays_online
    (timeoutDuration t now : Z) (id c : string) (m : gmap string ESP) :
  id ≠ "" ->
  timeoutDuration <= Time.maxDuration ->
  t <= now -> now - t < timeoutDuration ->
  StatusCode
    (SetCommand id c (monitorESPs timeoutDuration now (Register id t m).1)).2
    = StatusOK /\
  (is_Some (m !! id) ->
   StatusCode
     (SetCommand id c (monitorESPs timeoutDuration now (PollAndClear id t m).1)).2
     = StatusOK).
Proof.
  intros Hid Hmax Hle Hlt.
  assert (Hon : (Time.Sub now t <? timeoutDuration) = true).
  { rewrite Sub_exact; [by apply Z.ltb_lt|].
    unfold Time.minDuration, Time.maxDuration in *. lia. }
  split.
  - destruct (m !! id) as [esp|] eqn:Hm.
    + rewrite (Register_present id t m esp Hid Hm). cbn [fst snd].
      rewrite (SetCommand_online id c _
                 (set_Online (Time.Sub now t <? timeoutDuration)
                    (mkESP (ID esp) (Command esp) t true))); [done| |done].
      unfold monitorESPs. by rewrite lookup_fmap, lookup_insert_eq.
    + rewrite (Register_absent id t m Hid Hm). cbn [fst snd].
      rewrite (SetCommand_online id c _
                 (set_Online (Time.Sub now t <? timeoutDuration)
                    (mkESP id "" t true))); [done| |done].
      unfold monitorESPs. by rewrite lookup_fmap, lookup_insert_eq.
  - intros [esp Hm].
    rewrite (PollAndClear_present id t m esp Hid Hm). cbn [fst snd].
    rewrite (SetCommand_online id c _
               (set_Online (Time.Sub now t <? timeoutDuration)
                  (mkESP (ID esp) "" t true))); [done| |done].
    unfold monitorESPs. by rewrite lookup_fmap, lookup_insert_eq.
Qed.

Lemma contact_within_timeout_stays_online_witness :
  StatusCode
    (SetCommand "attic" "pulse"
       (monitorESPs defaultTimeout (20 * Time.Second) (Register "attic" 0 attic_offline).1)).2
    = StatusOK /\
  (is_Some (attic_offline !! "attic") ->
   StatusCode
     (SetCommand "attic" "pulse"
        (monitorESPs defaultTimeout (20 * Time.Second)
           (PollAndClear "attic" 0 attic_offline).1)).2
     = StatusOK).
Proof.
  apply (contact_within_timeout_stays_online defaultTimeout 0 (20 * Time.Second)
           "attic" "pulse" attic_offline).
  - discriminate.
  - vm_compute. discriminate.
  - vm_compute. discriminate.
  - vm_compute. reflexivity.
Defined.

(** ** Contact while offline *)

(** X8.  A poll does not look at the [Online] flag.  For a registered
    device, online or not, [PollAndClear] answers 200 with the pending
    command, and the device is available again at once: the next
    [SetCommand] answers 200 and the poll after it delivers that command. *)
Theorem poll_delivers_and_revives
    (id c : string) (now now' : Z) (m : gmap string ESP) (esp : ESP) :
  id ≠ "" ->
  m !! id = Some esp ->
  StatusCode (PollAndClear id now m).2 = StatusOK /\
  polledCommand (PollAndClear id now m).2 = Some (Command esp) /\
  StatusCode (SetCommand id c (PollAndClear id now m).1).2 = StatusOK /\
  polledCommand
    (PollAndClear id now' (SetCommand id c (PollAndClear id now m).1).1).2 = Some c.
Proof.
  intros Hid Hm.
  rewrite (PollAndClear_present id now m esp Hid Hm). cbn [fst snd].
  rewrite (SetCommand_online id c _ (mkESP (ID esp) "" now true));
    [|apply lookup_insert_eq|done].
  cbn [fst snd].
  rewrite (PollAndClear_present id now' _ (set_Command c (mkESP (ID esp) "" now true)) Hid);
    [done|apply lookup_insert_eq].
Qed.

Lemma poll_delivers_and_revives_witness :
  StatusCode (PollAndClear "attic" 70 attic_offline).2 = StatusOK /\
  polledCommand (PollAndClear "attic" 70 attic_offline).2
    = Some (Command (mkESP "attic" "force" 0 false)) /\
  StatusCode (SetCommand "attic" "pulse" (PollAndClear "attic" 70 attic_offline).1).2
    = StatusOK /\
  polledCommand
    (PollAndClear "attic" 71
       (SetCommand "attic" "pulse" (PollAndClear "attic" 70 attic_offline).1).1).2
    = Some "pulse".
Proof.
  apply (poll_delivers_and_revives "attic" "pulse" 70 71 attic_offline
           (mkESP "attic" "force" 0 false)).
  - discriminate.
  - vm_compute. reflexivity.
Defined.

(** ** Invariants along a run *)

Section Runs.

Variable timeoutDuration : Z.

Implicit Types (m : gmap string ESP) (r : Request) (id : string) (op : Op).

Lemma step_dom op m : dom m ⊆ dom (step timeoutDuration op m).
Proof.
  intros id Hin. apply elem_of_dom in Hin as [esp Hm].
  apply elem_of_dom. by eapply step_keeps_record.
Qed.

Lemma run_cons op ops m :
  run timeoutDuration (op :: ops) m
    = run timeoutDuration ops (step timeoutDuration op m).
Proof. reflexivity. Qed.

(** A pending command found after one transition was pending before it or
    was written by it. *)
Lemma step_command op m id esp' :
  step timeoutDuration op m !! id = Some esp' -> Command esp' ≠ "" ->
  (exists esp, m !! id = Some esp /\ Command esp = Command esp') \/
  (exists r, op = OpSetCommand r /\
             DecodeSetCommand r = Some {| dataID := id; dataCommand := Command esp' |}).
Proof.
  destruct op as [r now|r now|r|r clock|r|now]; cbn.
  - unfold registerHandler.
    destruct (String.eqb (Method r) MethodPost); cbn; [|by eauto].
    destruct (DecodeRegister r) as [id0|]; cbn; [|by eauto].
    destruct (String.eqb id0 ""); cbn; [by eauto|].
    destruct (m !! id0) as [esp0|] eqn:Hm0;
      rewrite lookup_insert; case_decide; subst; try (by eauto);
      intros [= <-]; cbn; [by eauto|done].
  - unfold commandHandler.
    destruct (String.eqb (QueryID r) ""); cbn; [by eauto|].
    destruct (m !! QueryID r) as [esp0|] eqn:Hm0; cbn; [|by eauto].
    rewrite lookup_insert; case_decide; subst; [|by eauto].
    by intros [= <-].
  - unfold setCommandHandler.
    destruct (String.eqb (Method r) MethodPost); cbn; [|by eauto].
    destruct (DecodeSetCommand r) as [[id0 c0]|] eqn:HD; cbn; [|by eauto].
    destruct (m !! id0) as [esp0|] eqn:Hm0; cbn; [|by eauto].
    destruct (Online esp0); cbn; [|by eauto].
    rewrite lookup_insert; case_decide; subst; [|by eauto].
    intros [= <-] _. cbn. right. by eauto.
  - by eauto.
  - by eauto.
  - unfold monitorESPs. rewrite lookup_fmap.
    destruct (m !! id) as [esp|]; cbn; [|done].
    intros [= <-] _. left. by eauto.
Qed.

Lemma run_command ops m id esp' :
  run timeoutDuration ops m !! id = Some esp' -> Command esp' ≠ "" ->
  (exists esp, m !! id = Some esp /\ Command esp = Command esp') \/
  commandSent ops id (Command esp').
Proof.
  revert m. induction ops as [|op ops IH]; intros m Hl Hne.
  - left. by eauto.
  - rewrite run_cons in Hl.
    destruct (IH _ Hl Hne) as [(esp1 & Hm1 & Hc1)|(r & Hin & HD)].
    + rewrite <- Hc1 in Hne.
      destruct (step_command op m id esp1 Hm1 Hne)
        as [(esp & Hm & Hc)|(r & -> & HD)].
      * left. exists esp. split; [done|congruence].
      * right. exists r. split; [by left|]. by rewrite <- Hc1.
    + right. exists r. split; [by right|done].
Qed.

End Runs.

(** X9.  The registry never shrinks: whatever requests and monitor passes
    follow, every registered id stays registered and the number of records
    does not decrease. *)
Theorem registry_never_shrinks
    (timeoutDuration : Z) (ops : list Op) (m : gmap string ESP) :
  dom m ⊆ dom (run timeoutDuration ops m) /\
  (size m <= size (run timeoutDuration ops m))%nat.
Proof.
  assert (Hdom : dom m ⊆ dom (run timeoutDuration ops m)).
  { revert m. induction ops as [|op ops IH]; intros m; [done|].
    rewrite run_cons. etrans; [apply (step_dom timeoutDuration op)|apply IH]. }
  split; [done|].
  rewrite <- !size_dom. by apply subseteq_size.
Qed.

(** X10.  Only a register creates a record.  If an id is absent before a
    transition and present after it, the transition is a POST to
    [registerHandler] whose body decodes to that non-empty id, and the new
    record has no pending command, [LastSeen = now] and [Online = true];
    in particular polls and set-commands for unknown ids create nothing. *)
Theorem only_register_creates
    (timeoutDuration : Z) (op : Op) (m : gmap string ESP) (id : string) (esp' : ESP) :
  m !! id = None ->
  step timeoutDuration op m !! id = Some esp' ->
  exists r now,
    op = OpRegister r now /\ Method r = MethodPost /\
    DecodeRegister r = Some id /\ id ≠ "" /\
    esp' = {| ID := id; Command := ""; LastSeen := now; Online := true |}.
Proof.
  intros Hm. destruct op as [r now|r now|r|r clock|r|now]; cbn.
  - unfold registerHandler.
    destruct (String.eqb_spec (Method r) MethodPost) as [HM|HM]; cbn; [|congruence].
    destruct (DecodeRegister r) as [id0|] eqn:HD; cbn; [|congruence].
    destruct (String.eqb_spec id0 "") as [He|He]; cbn; [congruence|].
    destruct (m !! id0) as [esp0|] eqn:Hm0;
      rewrite lookup_insert; case_decide; subst; try congruence.
    intros [= <-]. by eauto 10.
  - unfold commandHandler.
    destruct (String.eqb (QueryID r) ""); cbn; [congruence|].
    destruct (m !! QueryID r) as [esp0|] eqn:Hm0; cbn; [|congruence].
    rewrite lookup_insert; case_decide; subst; congruence.
  - unfold setCommandHandler.
    destruct (String.eqb (Method r) MethodPost); cbn; [|congruence].
    destruct (DecodeSetCommand r) as [data|]; cbn; [|congruence].
    destruct (m !! dataID data) as [esp0|] eqn:Hm0; cbn; [|congruence].
    destruct (Online esp0); cbn; [|congruence].
    rewrite lookup_insert; case_decide; subst; congruence.
  - congruence.
  - congruence.
  - unfold monitorESPs. rewrite lookup_fmap, Hm. discriminate.
Qed.

Lemma only_register_creates_witness :
  exists r now,
    OpRegister (registerRequest "bedroom") 9 = OpRegister r now /\
    Method r = MethodPost /\
    DecodeRegister r = Some "bedroom" /\ "bedroom" ≠ "" /\
    mkESP "bedroom" "" 9 true
      = {| ID := "bedroom"; Command := ""; LastSeen := now; Online := true |}.
Proof.
  apply (only_register_creates defaultTimeout (OpRegister (registerRequest "bedroom") 9)
           attic_registered "bedroom" (mkESP "bedroom" "" 9 true)).
  - vm_compute. reflexivity.
  - vm_compute. reflexivity.
Defined.

(** X11.  No device is handed a command nobody sent: in a registry reached
    from the empty one, a record's pending command, when it is not empty,
    is the command of some set-command request for that id among the
    operations run. *)
Theorem pending_command_was_sent
    (timeoutDuration : Z) (ops : list Op) (id : string) (esp : ESP) :
  run timeoutDuration ops ∅ !! id = Some esp ->
  Command esp ≠ "" ->
  commandSent ops id (Command esp).
Proof.
  intros Hl Hne.
  destruct (run_command timeoutDuration ops ∅ id esp Hl Hne)
    as [(esp0 & Hm & _)|Hsent]; [|done].
  by rewrite lookup_empty in Hm.
Qed.

Lemma pending_command_was_sent_witness :
  commandSent
    [OpRegister (registerRequest "bedroom") 0;
     OpSetCommand (setCommandRequest "bedroom" "pulse")]
    "bedroom" (Command (mkESP "bedroom" "pulse" 0 true)).
Proof.
  apply (pending_command_was_sent defaultTimeout
           [OpRegister (registerRequest "bedroom") 0;
            OpSetCommand (setCommandRequest "bedroom" "pulse")]
           "bedroom" (mkESP "bedroom" "pulse" 0 true)).
  - vm_compute. reflexivity.
  - discriminate.
Defined.

(** X12.  In every registry reached from the empty one, each record is
    stored under its own [ID], and that id is not empty. *)
Theorem reachable_records_wellformed
    (timeoutDuration : Z) (ops : list Op) (id : string) (esp : ESP) :
  run timeoutDuration ops ∅ !! id = Some esp ->
  ID esp = id /\ id ≠ "".
Proof.
  intros Hl.
  assert (Hr : reachable timeoutDuration (run timeoutDuration ops ∅))
    by (apply reachable_run; constructor).
  split.
  - apply reachable_keys_ok in Hr as [_ Hid]. by apply Hid.
  - by eapply reachable_nonempty_id.
Qed.

Lemma reachable_records_wellformed_witness :
  ID (mkESP "attic" "" 0 false) = "attic" /\ "attic" ≠ "".
Proof.
  apply (reachable_records_wellformed defaultTimeout
           [OpRegister (registerRequest "attic") 0; OpMonitor (60 * Time.Second)]
           "attic" (mkESP "attic" "" 0 false)).
  vm_compute. reflexivity.
Defined.

(** ** How the operations compose *)

(** X13.  The later contact wins.  For a non-empty id, two registers in a
    row leave the registry as the second alone would, and so do two polls
    in a row; a poll followed by a register of a registered device leaves
    it as a poll at the instant of the register would. *)
Theorem later_contact_wins (id : string) (now now' : Z) (m : gmap string ESP) :
  id ≠ "" ->
  (Register id now' (Register id now m).1).1 = (Register id now' m).1 /\
  (PollAndClear id now' (PollAndClear id now m).1).1 = (PollAndClear id now' m).1 /\
  (is_Some (m !! id) ->
   (Register id now' (PollAndClear id now m).1).1 = (PollAndClear id now' m).1).
Proof.
  intros Hid. destruct (m !! id) as [esp|] eqn:Hm.
  - rewrite (Register_present id now m esp Hid Hm),
            (Register_present id now' m esp Hid Hm),
            (PollAndClear_present id now m esp Hid Hm),
            (PollAndClear_present id now' m esp Hid Hm).
    cbn [fst snd].
    rewrite (Register_present id now' _ (mkESP (ID esp) (Command esp) now true) Hid)
      by apply lookup_insert_eq.
    rewrite (PollAndClear_present id now' _ (mkESP (ID esp) "" now true) Hid)
      by apply lookup_insert_eq.
    rewrite (Register_present id now' _ (mkESP (ID esp) "" now true) Hid)
      by apply lookup_insert_eq.
    cbn [fst snd ID Command]. by rewrite !insert_insert_eq.
  - rewrite (Register_absent id now m Hid Hm),
            (Register_absent id now' m Hid Hm),
            (PollAndClear_absent id now m Hid Hm),
            (PollAndClear_absent id now' m Hid Hm).
    cbn [fst snd].
    rewrite (Register_present id now' _ (mkESP id "" now true) Hid)
      by apply lookup_insert_eq.
    rewrite (PollAndClear_absent id now' m Hid Hm).
    cbn [fst snd ID Command]. rewrite insert_insert_eq.
    split; [done|]. split; [done|].
    intros Hs. by apply is_Some_None in Hs.
Qed.

Lemma later_contact_wins_witness :
  (Register "attic" 9 (Register "attic" 4 attic_offline).1).1
    = (Register "attic" 9 attic_offline).1 /\
  (PollAndClear "attic" 9 (PollAndClear "attic" 4 attic_offline).1).1
    = (PollAndClear "attic" 9 attic_offline).1 /\
  (is_Some (attic_offline !! "attic") ->
   (Register "attic" 9 (PollAndClear "attic" 4 attic_offline).1).1
     = (PollAndClear "attic" 9 attic_offline).1).
Proof. apply (later_contact_wins "attic" 4 9 attic_offline). discriminate. Defined.

(** X14.  The last write wins, whatever the state: a [SetCommand] that
    follows another for the same id gives the registry and the response it
    would have given alone (404 for an unknown id, 503 for an offline one,
    the second command stored otherwise). *)
Theorem SetCommand_overwrites (id X Y : string) (m : gmap string ESP) :
  SetCommand id Y (SetCommand id X m).1 = SetCommand id Y m.
Proof.
  destruct (m !! id) as [esp|] eqn:Hm.
  - destruct (Online esp) eqn:Hon.
    + rewrite (SetCommand_online id X m esp Hm Hon),
              (SetCommand_online id Y m esp Hm Hon).
      cbn [fst snd].
      rewrite (SetCommand_online id Y _ (set_Command X esp));
        [|apply lookup_insert_eq|done].
      by rewrite insert_insert_eq.
    + by rewrite (SetCommand_offline id X m esp Hm Hon).
  - by rewrite (SetCommand_absent id X m Hm).
Qed.

(** X16.  A poll touches one record: [commandHandler] leaves the record of
    every id other than the one in its query as it was, adds and removes no
    id, and keeps the [ID] of the record it refreshes. *)
Theorem commandHandler_frame (r : Request) (now : Z) (m : gmap string ESP) :
  (forall id', id' ≠ QueryID r -> (commandHandler r now m).1 !! id' = m !! id') /\
  dom (commandHandler r now m).1 = dom m /\
  (forall esp esp',
     m !! QueryID r = Some esp ->
     (commandHandler r now m).1 !! QueryID r = Some esp' ->
     ID esp' = ID esp).
Proof.
  unfold commandHandler.
  destruct (String.eqb (QueryID r) ""); cbn.
  { split; [done|]. split; [done|]. congruence. }
  destruct (m !! QueryID r) as [esp0|] eqn:Hm0; cbn.
  - split; [|split].
    + intros id' Hne. by apply lookup_insert_ne.
    + apply dom_insert_lookup_L. by eauto.
    + intros esp esp' [= <-]. rewrite lookup_insert_eq. by intros [= <-].
  - split; [done|]. split; [done|]. congruence.
Qed.

(** A request changes the registry through one key only: the transition is
    an update of the record under its target, computed from that record. *)
Lemma step_local (timeoutDuration : Z) (op : Op) (id : string) :
  target op = Some id ->
  exists g : option ESP -> option ESP,
    forall m, step timeoutDuration op m = partial_alter g id m.
Proof.
  destruct op as [r now|r now|r|r clock|r|now]; cbn; intros Ht; try discriminate.
  - exists (fun o =>
              if negb (String.eqb (Method r) MethodPost) then o
              else if String.eqb id "" then o
              else match o with
                   | None => Some (mkESP id "" now true)
                   | Some esp => Some (set_Online true (set_LastSeen now esp))
                   end).
    intros m. unfold registerHandler. rewrite Ht.
    destruct (String.eqb (Method r) MethodPost); cbn;
      [|by rewrite partial_alter_id].
    destruct (String.eqb id ""); cbn; [by rewrite partial_alter_id|].
    apply map_eq. intros i. rewrite lookup_partial_alter.
    destruct (m !! id) as [esp|]; rewrite lookup_insert; by case_decide.
  - injection Ht as <-.
    exists (fun o =>
              if String.eqb (QueryID r) "" then o
              else match o with
                   | None => None
                   | Some esp =>
                       Some (set_Command "" (set_Online true (set_LastSeen now esp)))
                   end).
    intros m. unfold commandHandler.
    destruct (String.eqb (QueryID r) ""); cbn; [by rewrite partial_alter_id|].
    apply map_eq. intros i. rewrite lookup_partial_alter.
    destruct (m !! QueryID r) as [esp|] eqn:Hm; cbn.
    + rewrite lookup_insert. by case_decide.
    + case_decide; by subst.
  - destruct (DecodeSetCommand r) as [[id0 c0]|] eqn:HD; cbn in Ht; [|discriminate].
    injection Ht as <-.
    exists (fun o =>
              if negb (String.eqb (Method r) MethodPost) then o
              else match o with
                   | None => None
                   | Some esp =>
                       if negb (Online esp) then Some esp
                       else Some (set_Command c0 esp)
                   end).
    intros m. unfold setCommandHandler.
    destruct (String.eqb (Method r) MethodPost); cbn;
      [|by rewrite partial_alter_id].
    rewrite HD. cbn.
    apply map_eq. intros i. rewrite lookup_partial_alter.
    destruct (m !! id0) as [esp|] eqn:Hm; cbn.
    + destruct (Online esp); cbn.
      * rewrite lookup_insert. by case_decide.
      * case_decide; by subst.
    + case_decide; by subst.
Qed.

(** X15.  Requests for different devices do not interfere: two requests
    (register, poll or set-command, in any combination) whose target ids
    differ leave the same registry in either order. *)
Theorem distinct_devices_commute
    (timeoutDuration : Z) (op1 op2 : Op) (id1 id2 : string) (m : gmap string ESP) :
  target op1 = Some id1 ->
  target op2 = Some id2 ->
  id1 ≠ id2 ->
  step timeoutDuration op1 (step timeoutDuration op2 m)
    = step timeoutDuration op2 (step timeoutDuration op1 m).
Proof.
  intros Ht1 Ht2 Hne.
  destruct (step_local timeoutDuration op1 id1 Ht1) as [g1 Hg1].
  destruct (step_local timeoutDuration op2 id2 Ht2) as [g2 Hg2].
  rewrite !Hg1, !Hg2. by apply partial_alter_partial_alter_ne.
Qed.

Lemma distinct_devices_commute_witness :
  step defaultTimeout (OpCommand (pollRequest "attic") 5)
    (step defaultTimeout (OpRegister (registerRequest "bedroom") 6) attic_offline)
  = step defaultTimeout (OpRegister (registerRequest "bedroom") 6)
      (step defaultTimeout (OpCommand (pollRequest "attic") 5) attic_offline).
Proof.
  apply (distinct_devices_commute defaultTimeout
           (OpCommand (pollRequest "attic") 5)
           (OpRegister (registerRequest "bedroom") 6) "attic" "bedroom").
  - reflexivity.
  - reflexivity.
  - discriminate.
Defined.

(** ** The client against the server *)

Lemma jsonStringFrom_ascii (s : string) :
  asciiOnly s = true -> jsonStringFrom 0 s = s.
Proof.
  induction s as [|b rest IH]; [done|]. cbn [asciiOnly jsonStringFrom].
  intros [Hb Hrest]%andb_prop. unfold runeLen. rewrite Hb.
  by rewrite IH.
Qed.

Lemma jsonString_wireCommand (cmd : string) :
  jsonString (wireCommand cmd) = wireCommand cmd.
Proof.
  unfold wireCommand.
  destruct (String.eqb cmd "on"); [by vm_compute|].
  destruct (String.eqb cmd "off"); [by vm_compute|].
  destruct (String.eqb cmd "status"); by vm_compute.
Qed.

(** X17.  Against a server in state [m], the result of [sendCommand] tells
    the state of the device whose id is [espID] as JSON carries it
    ([jsonString espID]: [espID] itself when it is plain ASCII, and U+FFFD
    in the place of every byte that is not well-formed UTF-8), whatever the
    verb.  The command is queued (the only result that does not exit with
    code 1) exactly when that device is registered and marked online, "not
    registered" exactly when that id is unknown, "offline" exactly when it
    is registered and marked offline; no other result occurs. *)
Theorem sendCommand_reflects_registry (cmd espID : string) (m : gmap string ESP) :
  (sendCommand (serverPost m) cmd espID = CommandQueued <->
     exists esp, m !! jsonString espID = Some esp /\ Online esp = true) /\
  (sendCommand (serverPost m) cmd espID = ESPNotRegistered <->
     m !! jsonString espID = None) /\
  (sendCommand (serverPost m) cmd espID = ESPOffline <->
     exists esp, m !! jsonString espID = Some esp /\ Online esp = false) /\
  (exitCode (sendCommand (serverPost m) cmd espID) = 0 <->
     exists esp, m !! jsonString espID = Some esp /\ Online esp = true) /\
  sendCommand (serverPost m) cmd espID ≠ ConnectFailed /\
  (forall code, sendCommand (serverPost m) cmd espID ≠ OtherStatus code) /\
  (asciiOnly espID = true -> jsonString espID = espID).
Proof.
  unfold sendCommand, serverPost, sendCommandRequest.
  fold (SetCommand (jsonString espID) (jsonString (wireCommand cmd)) m).
  assert (Hascii : asciiOnly espID = true -> jsonString espID = espID)
    by apply jsonStringFrom_ascii.
  destruct (m !! jsonString espID) as [esp|] eqn:Hm.
  - destruct (Online esp) eqn:Hon.
    + rewrite (SetCommand_online (jsonString espID) _ m esp Hm Hon). cbn.
      repeat split; try done; try (by eauto).
      intros (esp' & [= <-] & Hoff). congruence.
    + rewrite (SetCommand_offline (jsonString espID) _ m esp Hm Hon). cbn.
      repeat split; try done; try (by eauto);
        intros (esp' & [= <-] & Hon'); congruence.
  - rewrite (SetCommand_absent (jsonString espID) _ m Hm). cbn.
    repeat split; try done; by intros (esp' & ? & _).
Qed.

(** The id made of the single byte FF reaches the server as U+FFFD: with a
    device registered under U+FFFD and online, the command is queued. *)
Example sendCommand_invalid_utf8 :
  sendCommand
    (serverPost {[ replacementChar := mkESP replacementChar "" 0 true ]})
    "on" (String (Ascii.ascii_of_N 255) EmptyString)
  = CommandQueued.
Proof. by vm_compute. Qed.

(** X18.  [main] calls [sendCommand] only for the verbs [on], [off] and
    [status], with the first argument after the verb as the id, and for
    these the command put on the wire is [pulse], [force] and [status]: the
    command line never queues the empty command, which a polling device
    could not tell from "nothing pending". *)
Theorem main_sends_known_commands
    (versionFlag helpFlag : bool) (args : list string) (cmd espID : string) :
  main versionFlag helpFlag args = SendCommand cmd espID ->
  versionFlag = false /\ helpFlag = false /\
  (exists rest, args = cmd :: espID :: rest) /\
  ((cmd = "on" /\ wireCommand cmd = CommandPulse) \/
   (cmd = "off" /\ wireCommand cmd = CommandForce) \/
   (cmd = "status" /\ wireCommand cmd = CommandStatus)) /\
  wireCommand cmd ≠ "".
Proof.
  unfold main.
  destruct versionFlag; [discriminate|]. destruct helpFlag; [discriminate|].
  destruct args as [|cmd0 rest]; [discriminate|].
  destruct (String.eqb cmd0 "server"); [discriminate|].
  destruct (String.eqb_spec cmd0 "on") as [->|Hon]; cbn [orb].
  { destruct rest as [|id0 rest]; [discriminate|]. intros [= <- <-].
    repeat split; [by eauto|by left|discriminate]. }
  destruct (String.eqb_spec cmd0 "off") as [->|Hoff]; cbn [orb].
  { destruct rest as [|id0 rest]; [discriminate|]. intros [= <- <-].
    repeat split; [by eauto|by right; left|discriminate]. }
  destruct (String.eqb_spec cmd0 "status") as [->|Hst]; cbn [orb].
  { destruct rest as [|id0 rest]; [discriminate|]. intros [= <- <-].
    repeat split; [by eauto|by right; right|discriminate]. }
  destruct (String.eqb cmd0 "list"); discriminate.
Qed.

Lemma main_sends_known_commands_witness :
  false = false /\ false = false /\
  (exists rest, ["off"; "attic"; "now"] = "off" :: "attic" :: rest) /\
  (("off" = "on" /\ wireCommand "off" = CommandPulse) \/
   ("off" = "off" /\ wireCommand "off" = CommandForce) \/
   ("off" = "status" /\ wireCommand "off" = CommandStatus)) /\
  wireCommand "off" ≠ "".
Proof.
  apply (main_sends_known_commands false false ["off"; "attic"; "now"] "off" "attic").
  reflexivity.
Defined.

(** X19.  From the command line to the device.  When [main] dispatches a
    verb for a device whose id, as JSON carries it ([jsonString espID],
    which is [espID] for every id that is well-formed UTF-8), is registered
    and marked online in a reachable registry, [sendCommand] reports the
    command queued, and the device's next poll of the server receives the
    wire command of the verb. *)
Theorem cli_command_reaches_device
    (timeoutDuration : Z) (versionFlag helpFlag : bool) (args : list string)
    (cmd espID : string) (now : Z) (m : gmap string ESP) (esp : ESP) :
  main versionFlag helpFlag args = SendCommand cmd espID ->
  reachable timeoutDuration m ->
  m !! jsonString espID = Some esp ->
  Online esp = true ->
  sendCommand (serverPost m) cmd espID = CommandQueued /\
  polledCommand
    (PollAndClear (jsonString espID) now
       (setCommandHandler (sendCommandRequest cmd espID) m).1).2
    = Some (wireCommand cmd) /\
  In (wireCommand cmd) [CommandPulse; CommandForce; CommandStatus].
Proof.
  intros Hmain Hr Hm Hon.
  assert (Hid : jsonString espID ≠ "") by (by eapply reachable_nonempty_id).
  split; [|split].
  - unfold sendCommand, serverPost, sendCommandRequest.
    fold (SetCommand (jsonString espID) (jsonString (wireCommand cmd)) m).
    by rewrite (SetCommand_online (jsonString espID) _ m esp Hm Hon).
  - unfold sendCommandRequest.
    fold (SetCommand (jsonString espID) (jsonString (wireCommand cmd)) m).
    rewrite (SetCommand_online (jsonString espID) _ m esp Hm Hon). cbn [fst snd].
    rewrite (PollAndClear_present (jsonString espID) now _
               (set_Command (jsonString (wireCommand cmd)) esp) Hid);
      [|apply lookup_insert_eq].
    cbn. by rewrite jsonString_wireCommand.
  - revert Hmain. unfold main.
    destruct versionFlag; [discriminate|]. destruct helpFlag; [discriminate|].
    destruct args as [|cmd0 rest]; [discriminate|].
    destruct (String.eqb cmd0 "server"); [discriminate|].
    destruct (String.eqb_spec cmd0 "on") as [->|Hon']; cbn [orb].
    { destruct rest; [discriminate|]. intros [= <- <-]. by left. }
    destruct (String.eqb_spec cmd0 "off") as [->|Hoff]; cbn [orb].
    { destruct rest; [discriminate|]. intros [= <- <-]. by right; left. }
    destruct (String.eqb_spec cmd0 "status") as [->|Hst]; cbn [orb].
    { destruct rest; [discriminate|]. intros [= <- <-]. by right; right; left. }
    destruct (String.eqb cmd0 "list"); discriminate.
Qed.

Lemma cli_command_reaches_device_witness :
  sendCommand (serverPost attic_registered) "on" "attic" = CommandQueued /\
  polledCommand
    (PollAndClear (jsonString "attic") 3
       (setCommandHandler (sendCommandRequest "on" "attic") attic_registered).1).2
    = Some (wireCommand "on") /\
  In (wireCommand "on") [CommandPulse; CommandForce; CommandStatus].
Proof.
  apply (cli_command_reaches_device defaultTimeout false false ["on"; "attic"]
           "on" "attic" 3 attic_registered (mkESP "attic" "" 0 true)).
  - reflexivity.
  - apply (reachable_step defaultTimeout (OpRegister (registerRequest "attic") 0) ∅).
    apply reachable_init.
  - vm_compute. reflexivity.
  - reflexivity.
Defined.

(** X20.  [listESPs] against a server in state [m]: it prints "No ESPs
    registered" exactly when the registry is empty; otherwise it prints one
    line per registered device, and a device has a green line exactly when
    the registry marks it online, a red one exactly when it marks it
    offline. *)
Theorem listESPs_reflects_registry (r : Request) (clock : string -> Z) (m : gmap string ESP) :
  exists esps,
    Payload (listHandler r clock m).2 = JSONList esps /\
    (listESPs (Some (Some esps)) = NoESPsRegistered <-> m = ∅) /\
    (m ≠ ∅ ->
     exists lines,
       listESPs (Some (Some esps)) = RegisteredESPs lines /\
       length lines = size m /\
       forall id,
         ((exists line, line ∈ lines /\ lineID line = id /\ lineColor line = Green) <->
          (exists esp, m !! id = Some esp /\ Online esp = true)) /\
         ((exists line, line ∈ lines /\ lineID line = id /\ lineColor line = Red) <->
          (exists esp, m !! id = Some esp /\ Online esp = false))).
Proof.
  eexists. split; [apply listHandler_payload|].
  unfold listESPs. rewrite length_fmap, length_map_to_list.
  destruct (Nat.eqb_spec (size m) 0) as [Hz|Hnz].
  - apply map_size_empty_iff in Hz. split; [done|]. by intros Hne.
  - split.
    { split; [done|]. intros ->. by rewrite map_size_empty in Hnz. }
    intros _. eexists. split; [reflexivity|].
    split; [by rewrite !length_fmap, length_map_to_list|].
    intros id. rewrite <- list_fmap_compose.
    split; split.
    + intros (line & Hin & <- & Hc).
      apply list_elem_of_fmap in Hin as ([id esp] & -> & Hin).
      apply elem_of_map_to_list in Hin. cbn in *.
      exists esp. split; [done|]. by destruct (Online esp).
    + intros (esp & Hm & Hon). apply elem_of_map_to_list in Hm.
      eexists. split; [by apply (list_elem_of_fmap_2 _ _ (id, esp))|].
      cbn. by rewrite Hon.
    + intros (line & Hin & <- & Hc).
      apply list_elem_of_fmap in Hin as ([id esp] & -> & Hin).
      apply elem_of_map_to_list in Hin. cbn in *.
      exists esp. split; [done|]. by destruct (Online esp).
    + intros (esp & Hm & Hon). apply elem_of_map_to_list in Hm.
      eexists. split; [by apply (list_elem_of_fmap_2 _ _ (id, esp))|].
      cbn. by rewrite Hon.
Qed.

(** ** Liveness as the list shows it *)

Lemma Sub_reaches (timeoutDuration now t : Z) :
  timeoutDuration <= Time.maxDuration ->
  timeoutDuration <= now - t ->
  (Time.Sub now t <? timeoutDuration) = false.
Proof.
  intros Hmax Hle. unfold Time.Sub. apply Z.ltb_ge.
  unfold Time.minDuration, Time.maxDuration in *.
  destruct (Z.ltb_spec (now - t) (- 2 ^ 63)); [lia|].
  destruct (Z.ltb_spec (2 ^ 63 - 1) (now - t)); lia.
Qed.

Lemma listHandler_lists r clock (m : gmap string ESP) id esp :
  m !! id = Some esp ->
  exists esps info,
    Payload (listHandler r clock m).2 = JSONList esps /\
    info ∈ esps /\ infoID info = id /\ infoOnline info = Online esp.
Proof.
  intros Hm. eexists _, _. split; [apply listHandler_payload|].
  split.
  { apply (list_elem_of_fmap_2 _ _ (id, esp)). by apply elem_of_map_to_list. }
  by cbn.
Qed.

(** X21.  For a registered device with a non-empty id and a timeout that
    fits a [Duration]: once a monitor pass has run at an instant [now] with
    [now - LastSeen] at least the timeout, the list shows the device
    offline; after a poll or a register of the device, the list shows it
    online again, with no monitor pass in between. *)
Theorem list_shows_liveness
    (timeoutDuration now t : Z) (r : Request) (clock : string -> Z)
    (m : gmap string ESP) (id : string) (esp : ESP) :
  id ≠ "" ->
  m !! id = Some esp ->
  timeoutDuration <= Time.maxDuration ->
  timeoutDuration <= now - LastSeen esp ->
  let m1 := monitorESPs timeoutDuration now m in
  (exists esps info,
     Payload (listHandler r clock m1).2 = JSONList esps /\
     info ∈ esps /\ infoID info = id /\ infoOnline info = false) /\
  (exists esps info,
     Payload (listHandler r clock (PollAndClear id t m1).1).2 = JSONList esps /\
     info ∈ esps /\ infoID info = id /\ infoOnline info = true) /\
  (exists esps info,
     Payload (listHandler r clock (Register id t m1).1).2 = JSONList esps /\
     info ∈ esps /\ infoID info = id /\ infoOnline info = true).
Proof.
  intros Hid Hm Hmax Hle m1.
  assert (Hm1 : m1 !! id = Some (set_Online false esp)).
  { unfold m1, monitorESPs. rewrite lookup_fmap, Hm. cbn.
    by rewrite Sub_reaches. }
  split; [|split].
  - apply (listHandler_lists r clock m1 id _ Hm1).
  - rewrite (PollAndClear_present id t m1 _ Hid Hm1). cbn [fst snd].
    apply (listHandler_lists r clock _ id (mkESP (ID esp) "" t true)).
    apply lookup_insert_eq.
  - rewrite (Register_present id t m1 _ Hid Hm1). cbn [fst snd].
    apply (listHandler_lists r clock _ id (mkESP (ID esp) (Command esp) t true)).
    apply lookup_insert_eq.
Qed.

Lemma list_shows_liveness_witness :
  let m1 := monitorESPs defaultTimeout (30 * Time.Second) attic_registered in
  (exists esps info,
     Payload (listHandler (pollRequest "") (fun _ => 0) m1).2 = JSONList esps /\
     info ∈ esps /\ infoID info = "attic" /\ infoOnline info = false) /\
  (exists esps info,
     Payload (listHandler (pollRequest "") (fun _ => 0)
                (PollAndClear "attic" 31 m1).1).2 = JSONList esps /\
     info ∈ esps /\ infoID info = "attic" /\ infoOnline info = true) /\
  (exists esps info,
     Payload (listHandler (pollRequest "") (fun _ => 0)
                (Register "attic" 31 m1).1).2 = JSONList esps /\
     info ∈ esps /\ infoID info = "attic" /\ infoOnline info = true).
Proof.
  apply (list_shows_liveness defaultTimeout (30 * Time.Second) 31 (pollRequest "")
           (fun _ => 0) attic_registered "attic" (mkESP "attic" "" 0 true)).
  - discriminate.
  - vm_compute. reflexivity.
  - vm_compute. discriminate.
  - vm_compute. discriminate.
Defined.
